(** * The configuration tab plugin: saving the settings form

    A shallow embedding of [plugins/wan2gp-configuration/plugin.py]:
    the handlers [_save_changes] and [_save_and_restart] of
    [ConfigTabPlugin], together with the Python string operations they
    are written with ([str.strip], [str.replace], [str.split]). *)

From Stdlib Require Import ZArith NArith List Bool Lia Ascii String.
From stdpp Require Import base option list strings gmap.

Set Warnings "-register-all".

(** ** Python strings *)

Module PyStr.

(** A [str] is a sequence of Unicode code points. *)
Definition char := N.
Definition pystr := list char.

Definition CR : char := 0x0D%N.
Definition LF : char := 0x0A%N.

(** [str.isspace] on one character, the test [str.strip()] uses when it
    is called without an argument: the code points whose bidirectional
    class is WS, B or S, or whose category is Zs. *)
Definition isspace (c : char) : bool :=
  ((0x09 <=? c) && (c <=? 0x0D)
   || (0x1C <=? c) && (c <=? 0x20)
   || (c =? 0x85) || (c =? 0xA0) || (c =? 0x1680)
   || (0x2000 <=? c) && (c <=? 0x200A)
   || (c =? 0x2028) || (c =? 0x2029) || (c =? 0x202F)
   || (c =? 0x205F) || (c =? 0x3000))%N.

(** A string literal of the source, as code points. *)
Definition py (s : string) : pystr :=
  map N_of_ascii (list_ascii_of_string s).

(** [s.lstrip()], [s.rstrip()] and [s.strip()]: [strip] cuts the
    leading run of whitespace, then the trailing one. *)
Fixpoint lstrip (s : pystr) : pystr :=
  match s with
  | [] => []
  | c :: s' => if isspace c then lstrip s' else s
  end.

Definition rstrip (s : pystr) : pystr := rev (lstrip (rev s)).

Definition strip (s : pystr) : pystr := rstrip (lstrip s).

(** [s.replace(old, new)] for a pattern [old] of one character. *)
Fixpoint replace (old : char) (new : pystr) (s : pystr) : pystr :=
  match s with
  | [] => []
  | c :: s' => if (c =? old)%N then new ++ replace old new s'
               else c :: replace old new s'
  end.

(** [s.split(sep)] for a separator of one character: the pieces between
    the separators, empty pieces included, so never an empty list. *)
Fixpoint split (sep : char) (s : pystr) : list pystr :=
  match s with
  | [] => [[]]
  | c :: s' =>
      if (c =? sep)%N then [] :: split sep s'
      else match split sep s' with
           | [] => [[c]]
           | piece :: pieces => (c :: piece) :: pieces
           end
  end.

(** [sep.join(pieces)]. *)
Fixpoint join (sep : char) (pieces : list pystr) : pystr :=
  match pieces with
  | [] => []
  | [p] => p
  | p :: ps => p ++ sep :: join sep ps
  end.

(** No whitespace at either end. *)
Definition trimmed (s : pystr) : bool :=
  match s with
  | [] => true
  | c :: _ => negb (isspace c) && negb (isspace (List.last s c))
  end.

End PyStr.

(** ** The plugin *)

Module Plugin.
Import PyStr.

(** The values that travel through the handler: what a form component
    submits, what the [state] mapping holds, what [json.dumps] writes. *)
Inductive pyval : Type :=
| VNone
| VBool (b : bool)
| VInt (z : Z)
| VStr (s : pystr)
| VList (l : list pyval)
| VDict (d : list (string * pyval)).

(** A Python [dict] with [str] keys, such as [server_config]. *)
Abbreviation dict := (gmap string pyval).

(** The calls the handler makes on the host application, oldest first
    in a trace. *)
Inductive host_call : Type :=
| SetCheckpointsPaths (paths : list pystr)
| FileWrite (path : string) (doc : dict)
| GrInfo (msg : string)
| QuitApplication.

(** What the handlers read and change: the globals the plugin requested
    in [setup_ui] and the file system. A JSON file is identified with
    the document [json.dumps] encodes into it. *)
Record World : Type := {
  lock_config : bool;                     (* self.args.lock_config *)
  server_config : dict;                   (* self.server_config *)
  server_config_filename : string;        (* self.server_config_filename *)
  default_checkpoints_paths : list pystr; (* self.fl.default_checkpoints_paths *)
  fl_checkpoints_paths : list pystr;      (* the list last installed by self.fl.set_checkpoints_paths *)
  files : gmap string dict;               (* path -> document *)
  calls : list host_call
}.

(** The positional arguments after [state], one per form component of
    [inputs] in [post_ui_setup], under the names [_save_changes] unpacks
    them to. [checkpoints_paths_choice] comes from a [gr.Textbox]. *)
Record FormValues : Type := {
  transformer_types_choices : pyval;
  model_hierarchy_type_choice : pyval;
  fit_canvas_choice : pyval;
  attention_choice : pyval;
  preload_model_policy_choice : pyval;
  clear_file_list_choice : pyval;
  display_stats_choice : pyval;
  max_frames_multiplier_choice : pyval;
  checkpoints_paths_choice : pystr;
  UI_theme_choice : pyval;
  queue_color_scheme_choice : pyval;
  quantization_choice : pyval;
  transformer_dtype_policy_choice : pyval;
  mixed_precision_choice : pyval;
  text_encoder_quantization_choice : pyval;
  VAE_precision_choice : pyval;
  compile_choice : pyval;
  depth_anything_v2_variant_choice : pyval;
  vae_config_choice : pyval;
  boost_choice : pyval;
  profile_choice : pyval;
  preload_in_VRAM_choice : pyval;
  enhancer_enabled_choice : pyval;
  enhancer_mode_choice : pyval;
  mmaudio_enabled_choice : pyval;
  video_output_codec_choice : pyval;
  image_output_codec_choice : pyval;
  audio_output_codec_choice : pyval;
  metadata_choice : pyval;
  embed_source_images_choice : pyval;
  save_path_choice : pyval;
  image_save_path_choice : pyval;
  notification_sound_enabled_choice : pyval;
  notification_sound_volume_choice : pyval;
  last_resolution_choice : pyval
}.

(** *** Effects: a state and exception monad over [World] *)

Inductive exn : Type :=
| KeyError (key : string).

Inductive outcome (A : Type) : Type :=
| Returned (a : A)
| Raised (e : exn).
Arguments Returned {A} a.
Arguments Raised {A} e.

Definition M (A : Type) : Type := World -> outcome A * World.

#[global] Instance M_ret : MRet M := fun A a w => (Returned a, w).

#[global] Instance M_bind : MBind M := fun A B k m w =>
  match m w with
  | (Returned a, w') => k a w'
  | (Raised e, w') => (Raised e, w')
  end.

Definition raise {A} (e : exn) : M A := fun w => (Raised e, w).
Definition world : M World := fun w => (Returned w, w).
Definition put (w : World) : M unit := fun _ => (Returned tt, w).

(** [d[key]] *)
Definition getitem (d : dict) (key : string) : M pyval :=
  match d !! key with
  | Some v => mret v
  | None => raise (KeyError key)
  end.

(** [self.fl.set_checkpoints_paths(paths)] *)
Definition set_checkpoints_paths (paths : list pystr) : M unit :=
  w ← world;
  put {| lock_config := lock_config w;
         server_config := server_config w;
         server_config_filename := server_config_filename w;
         default_checkpoints_paths := default_checkpoints_paths w;
         fl_checkpoints_paths := paths;
         files := files w;
         calls := calls w ++ [SetCheckpointsPaths paths] |}.

(** [with open(path, "w") as writer: writer.write(json.dumps(doc, indent=4))]:
    mode ["w"] truncates, the file holds [doc] and nothing else. *)
Definition write_json (path : string) (doc : dict) : M unit :=
  w ← world;
  put {| lock_config := lock_config w;
         server_config := server_config w;
         server_config_filename := server_config_filename w;
         default_checkpoints_paths := default_checkpoints_paths w;
         fl_checkpoints_paths := fl_checkpoints_paths w;
         files := <[path := doc]> (files w);
         calls := calls w ++ [FileWrite path doc] |}.

(** [self.server_config.update(doc)]: the shared dict is changed in
    place, the keys of [doc] win. *)
Definition server_config_update (doc : dict) : M unit :=
  w ← world;
  put {| lock_config := lock_config w;
         server_config := doc ∪ server_config w;
         server_config_filename := server_config_filename w;
         default_checkpoints_paths := default_checkpoints_paths w;
         fl_checkpoints_paths := fl_checkpoints_paths w;
         files := files w;
         calls := calls w |}.

(** A call that only the host sees: [gr.Info(msg)], [self.quit_application()]. *)
Definition log (w : World) (cs : list host_call) : World :=
  {| lock_config := lock_config w;
     server_config := server_config w;
     server_config_filename := server_config_filename w;
     default_checkpoints_paths := default_checkpoints_paths w;
     fl_checkpoints_paths := fl_checkpoints_paths w;
     files := files w;
     calls := calls w ++ cs |}.

Definition host (c : host_call) : M unit :=
  w ← world;
  put (log w [c]).

(** *** [_save_changes] *)

Definition locked_notice : string :=
  "<div style='color:red; text-align:center;'>Configuration is locked by command-line arguments.</div>".

Definition saved_notice : string :=
  "<div style='color:green; text-align:center;'>Settings saved. Please restart the application for all changes to take effect.</div>".

(** Lines 199-203: the local [checkpoints_paths]. *)
Definition checkpoints_paths (default : list pystr) (choice : pystr) : list pystr :=
  if (length (strip choice) =? 0)%nat then default
  else
    let paths := split LF (replace CR [] choice) in
    map strip (List.filter (fun path => (0 <? length (strip path))%nat) paths).

Definition paths_value (paths : list pystr) : pyval := VList (map VStr paths).

(** Lines 207-233: the dict display bound to [new_server_config]. The
    five subscriptions of [state] are evaluated in the order of the
    display, the first missing key raises. *)
Definition new_server_config (state : dict) (f : FormValues) (paths : list pystr) : M dict :=
  model_type ← getitem state "model_type";
  last_model_per_family ← getitem state "last_model_per_family";
  last_model_per_type ← getitem state "last_model_per_type";
  advanced ← getitem state "advanced";
  last_resolution_per_group ← getitem state "last_resolution_per_group";
  mret (list_to_map [
    ("attention_mode", attention_choice f);
    ("transformer_types", transformer_types_choices f);
    ("text_encoder_quantization", text_encoder_quantization_choice f);
    ("save_path", save_path_choice f);
    ("image_save_path", image_save_path_choice f);
    ("compile", compile_choice f);
    ("profile", profile_choice f);
    ("vae_config", vae_config_choice f);
    ("vae_precision", VAE_precision_choice f);
    ("mixed_precision", mixed_precision_choice f);
    ("metadata_type", metadata_choice f);
    ("transformer_quantization", quantization_choice f);
    ("transformer_dtype_policy", transformer_dtype_policy_choice f);
    ("boost", boost_choice f);
    ("clear_file_list", clear_file_list_choice f);
    ("preload_model_policy", preload_model_policy_choice f);
    ("UI_theme", UI_theme_choice f);
    ("fit_canvas", fit_canvas_choice f);
    ("enhancer_enabled", enhancer_enabled_choice f);
    ("enhancer_mode", enhancer_mode_choice f);
    ("mmaudio_enabled", mmaudio_enabled_choice f);
    ("preload_in_VRAM", preload_in_VRAM_choice f);
    ("depth_anything_v2_variant", depth_anything_v2_variant_choice f);
    ("notification_sound_enabled", notification_sound_enabled_choice f);
    ("notification_sound_volume", notification_sound_volume_choice f);
    ("max_frames_multiplier", max_frames_multiplier_choice f);
    ("display_stats", display_stats_choice f);
    ("video_output_codec", video_output_codec_choice f);
    ("image_output_codec", image_output_codec_choice f);
    ("audio_output_codec", audio_output_codec_choice f);
    ("model_hierarchy_type", model_hierarchy_type_choice f);
    ("checkpoints_paths", paths_value paths);
    ("queue_color_scheme", queue_color_scheme_choice f);
    ("embed_source_images", embed_source_images_choice f);
    ("last_model_type", model_type);
    ("last_model_per_family", last_model_per_family);
    ("last_model_per_type", last_model_per_type);
    ("last_advanced_choice", advanced);
    ("last_resolution_choice", last_resolution_choice f);
    ("last_resolution_per_group", last_resolution_per_group)
  ]).

(** [if key in src: dst[key] = src[key]] *)
Definition carry_over (key : string) (src dst : dict) : dict :=
  match src !! key with
  | Some v => <[key := v]> dst
  | None => dst
  end.

(** Lines 178-247. The lock is tested twice, at line 179 and again at
    line 238 before the two locked fields are taken from the prior
    [server_config]. The registry update of line 205 comes before the
    dict display, so it stays when the display raises. *)
Definition _save_changes (state : dict) (f : FormValues) : M string :=
  w ← world;
  if lock_config w then mret locked_notice
  else
    let paths := checkpoints_paths (default_checkpoints_paths w) (checkpoints_paths_choice f) in
    set_checkpoints_paths paths;;
    doc ← new_server_config state f paths;
    w ← world;
    let doc := carry_over "enabled_plugins" (server_config w) doc in
    let doc :=
      if lock_config w
      then carry_over "compile" (server_config w)
             (carry_over "attention_mode" (server_config w) doc)
      else doc in
    write_json (server_config_filename w) doc;;
    server_config_update doc;;
    mret saved_notice.

(** *** [_save_and_restart] *)

(** Lines 249-252: the result of [_save_changes] is dropped, an
    exception it raises is not caught. *)
Definition _save_and_restart (state : dict) (f : FormValues) : M unit :=
  _save_changes state f;;
  host (GrInfo "Settings saved. Restarting application...");;
  host QuitApplication.

End Plugin.

(** ** What the specification says, in its own words *)

Module Spec.
Import PyStr Plugin.

Definition nonempty (s : pystr) : bool :=
  match s with [] => false | _ :: _ => true end.

(** "split on newlines, trimmed, empty lines dropped" *)
Definition normalize (text : pystr) : list pystr :=
  List.filter nonempty (map strip (split LF text)).

(** "removing carriage returns" *)
Definition remove_cr (text : pystr) : pystr :=
  List.filter (fun c => negb (c =? CR)%N) text.

(** The path list of a submission: carriage returns removed, then
    split, trimmed and the empty lines dropped, in order. *)
Definition paths (text : pystr) : list pystr :=
  normalize (remove_cr text).

(** A well-formed path: not empty, no whitespace at either end, no
    carriage return. *)
Definition path_ok (p : pystr) : bool :=
  nonempty p && trimmed p && negb (existsb (fun c => (c =? CR)%N) p).

(** A well-formed path list: not empty, of well-formed paths. *)
Definition paths_ok (l : list pystr) : bool :=
  match l with [] => false | _ :: _ => forallb path_ok l end.

(** The keys [state] is subscripted with. *)
Definition state_keys : list string :=
  ["model_type"; "last_model_per_family"; "last_model_per_type";
   "advanced"; "last_resolution_per_group"].

Definition has_keys (state : dict) : bool :=
  forallb (fun k => bool_decide (is_Some (state !! k))) state_keys.

(** The keys of the dict display of [new_server_config]. *)
Definition display_keys : gset string :=
  list_to_set [
    "attention_mode"; "transformer_types"; "text_encoder_quantization";
    "save_path"; "image_save_path"; "compile"; "profile"; "vae_config";
    "vae_precision"; "mixed_precision"; "metadata_type";
    "transformer_quantization"; "transformer_dtype_policy"; "boost";
    "clear_file_list"; "preload_model_policy"; "UI_theme"; "fit_canvas";
    "enhancer_enabled"; "enhancer_mode"; "mmaudio_enabled";
    "preload_in_VRAM"; "depth_anything_v2_variant";
    "notification_sound_enabled"; "notification_sound_volume";
    "max_frames_multiplier"; "display_stats"; "video_output_codec";
    "image_output_codec"; "audio_output_codec"; "model_hierarchy_type";
    "checkpoints_paths"; "queue_color_scheme"; "embed_source_images";
    "last_model_type"; "last_model_per_family"; "last_model_per_type";
    "last_advanced_choice"; "last_resolution_choice";
    "last_resolution_per_group"].

(** What the dict display puts under the keys the claims name. *)
Definition is_display (f : FormValues) (paths : list pystr) (d : dict) : Prop :=
  dom d = display_keys
  /\ d !! "attention_mode" = Some (attention_choice f)
  /\ d !! "compile" = Some (compile_choice f)
  /\ d !! "checkpoints_paths" = Some (paths_value paths).

(** The world after the registry update of line 205 alone. *)
Definition installed (w : World) (paths : list pystr) : World :=
  {| lock_config := lock_config w;
     server_config := server_config w;
     server_config_filename := server_config_filename w;
     default_checkpoints_paths := default_checkpoints_paths w;
     fl_checkpoints_paths := paths;
     files := files w;
     calls := calls w ++ [SetCheckpointsPaths paths] |}.

(** The world a completed save of [doc] leaves behind. *)
Definition saved (w : World) (paths : list pystr) (doc : dict) : World :=
  {| lock_config := lock_config w;
     server_config := doc ∪ server_config w;
     server_config_filename := server_config_filename w;
     default_checkpoints_paths := default_checkpoints_paths w;
     fl_checkpoints_paths := paths;
     files := <[server_config_filename w := doc]> (files w);
     calls := calls w ++ [SetCheckpointsPaths paths;
                          FileWrite (server_config_filename w) doc] |}.

End Spec.

(** ** Sample inputs *)

Module Sample.
Import PyStr Plugin.

(** A submission of the form; the three arguments are the attention
    choice, the compile choice and the text of the checkpoint folders. *)
Definition form (attention compile : pyval) (text : pystr) : FormValues :=
  {| transformer_types_choices := VList [];
     model_hierarchy_type_choice := VInt 1;
     fit_canvas_choice := VInt 0;
     attention_choice := attention;
     preload_model_policy_choice := VList [VStr (py "P")];
     clear_file_list_choice := VInt 5;
     display_stats_choice := VInt 0;
     max_frames_multiplier_choice := VInt 1;
     checkpoints_paths_choice := text;
     UI_theme_choice := VStr (py "default");
     queue_color_scheme_choice := VStr (py "pastel");
     quantization_choice := VStr (py "int8");
     transformer_dtype_policy_choice := VStr [];
     mixed_precision_choice := VStr (py "0");
     text_encoder_quantization_choice := VStr (py "int8");
     VAE_precision_choice := VStr (py "16");
     compile_choice := compile;
     depth_anything_v2_variant_choice := VStr (py "vitl");
     vae_config_choice := VInt 0;
     boost_choice := VInt 1;
     profile_choice := VInt 4;
     preload_in_VRAM_choice := VInt 0;
     enhancer_enabled_choice := VInt 0;
     enhancer_mode_choice := VInt 0;
     mmaudio_enabled_choice := VInt 0;
     video_output_codec_choice := VStr (py "libx264_8");
     image_output_codec_choice := VStr (py "jpeg_95");
     audio_output_codec_choice := VStr (py "aac_128");
     metadata_choice := VStr (py "metadata");
     embed_source_images_choice := VBool false;
     save_path_choice := VStr (py "outputs");
     image_save_path_choice := VStr (py "outputs");
     notification_sound_enabled_choice := VInt 0;
     notification_sound_volume_choice := VInt 50;
     last_resolution_choice := VStr (py "832x480") |}.

(** A [state] mapping with the five keys the handler reads. *)
Definition state : dict :=
  list_to_map [
    ("model_type", VStr (py "t2v"));
    ("last_model_per_family", VDict []);
    ("last_model_per_type", VDict []);
    ("advanced", VBool false);
    ("last_resolution_per_group", VDict [])].

Definition world (lock : bool) (config : dict) (default : list pystr) : World :=
  {| lock_config := lock;
     server_config := config;
     server_config_filename := "wgp_config.json";
     default_checkpoints_paths := default;
     fl_checkpoints_paths := default;
     files := {["wgp_config.json" := config]};
     calls := [] |}.

(** A persisted configuration with values for the two locked fields. *)
Definition prior : dict :=
  list_to_map [("attention_mode", VStr (py "sdpa")); ("compile", VStr [])].

Definition with_plugins : dict :=
  <["enabled_plugins" := VList [VStr (py "wan2gp-configuration")] ]> prior.

Definition defaults : list pystr := [py "ckpts"; py "."].

(** [" ckpts \r\n\n  models/extra\t\n"] *)
Definition two_folders : pystr :=
  [32; 99; 107; 112; 116; 115; 32; 13; 10; 10; 32; 32; 109; 111; 100; 101;
   108; 115; 47; 101; 120; 116; 114; 97; 9; 10]%N.

(** [" \r\n\t "] *)
Definition blank : pystr := [32; 13; 10; 9; 32]%N.

End Sample.

(** ** The form and its wiring *)

Module Ui.
Import PyStr Plugin Spec.

(** *** [create_config_ui] *)




(** *** [post_ui_setup] *)

(** The components of [inputs]: [state] and [resolution] come from the
    host, the others are the attributes [create_config_ui] sets. *)
Inductive component : Type :=
| c_state
| c_transformer_types_choices
| c_model_hierarchy_type_choice
| c_fit_canvas_choice
| c_attention_choice
| c_preload_model_policy_choice
| c_clear_file_list_choice
| c_display_stats_choice
| c_max_frames_multiplier_choice
| c_checkpoints_paths_choice
| c_UI_theme_choice
| c_queue_color_scheme_choice
| c_quantization_choice
| c_transformer_dtype_policy_choice
| c_mixed_precision_choice
| c_text_encoder_quantization_choice
| c_VAE_precision_choice
| c_compile_choice
| c_depth_anything_v2_variant_choice
| c_vae_config_choice
| c_boost_choice
| c_profile_choice
| c_preload_in_VRAM_choice
| c_enhancer_enabled_choice
| c_enhancer_mode_choice
| c_mmaudio_enabled_choice
| c_video_output_codec_choice
| c_image_output_codec_choice
| c_audio_output_codec_choice
| c_metadata_choice
| c_embed_source_images_choice
| c_video_save_path_choice
| c_image_save_path_choice
| c_notification_sound_enabled_choice
| c_notification_sound_volume_choice
| c_resolution.

(** Lines 258-274. *)
Definition inputs : list component :=
  [
   c_state; c_transformer_types_choices; c_model_hierarchy_type_choice;
   c_fit_canvas_choice; c_attention_choice; c_preload_model_policy_choice;
   c_clear_file_list_choice; c_display_stats_choice;
   c_max_frames_multiplier_choice; c_checkpoints_paths_choice;
   c_UI_theme_choice; c_queue_color_scheme_choice; c_quantization_choice;
   c_transformer_dtype_policy_choice; c_mixed_precision_choice;
   c_text_encoder_quantization_choice; c_VAE_precision_choice;
   c_compile_choice; c_depth_anything_v2_variant_choice;
   c_vae_config_choice; c_boost_choice; c_profile_choice;
   c_preload_in_VRAM_choice; c_enhancer_enabled_choice;
   c_enhancer_mode_choice; c_mmaudio_enabled_choice;
   c_video_output_codec_choice; c_image_output_codec_choice;
   c_audio_output_codec_choice; c_metadata_choice;
   c_embed_source_images_choice; c_video_save_path_choice;
   c_image_save_path_choice; c_notification_sound_enabled_choice;
   c_notification_sound_volume_choice; c_resolution ].

(** A click calls the handler with the current values of [inputs] as
    positional arguments. *)
Definition click_args (values : component -> pyval) : list pyval :=
  map values inputs.

(** *** Calling the handlers with positional arguments *)

(** What a call can raise: the errors of binding and unpacking the
    arguments and of using a value of the wrong type, or an exception
    of the body. *)
Inductive raised : Type :=
| TypeError
| ValueError
| AttributeError
| InBody (e : exn).

(** Lines 182-197, the unpacking of [args] into thirty-five names:
    [None] when their number is not thirty-five ([ValueError]). No value
    is looked at; the text of the folders box is handed out apart, the
    form waits for it. *)
Definition unpack (args : list pyval) : option (pyval * (pystr -> FormValues)) :=
  match args with
  | [
     a1; a2; a3; a4; a5; a6; a7; a8; a9; a10; a11; a12; a13; a14; a15; a16;
     a17; a18; a19; a20; a21; a22; a23; a24; a25; a26; a27; a28; a29; a30;
     a31; a32; a33; a34; a35 ] =>
      Some (a9,
            fun text =>
            {| transformer_types_choices := a1;
               model_hierarchy_type_choice := a2;
               fit_canvas_choice := a3;
               attention_choice := a4;
               preload_model_policy_choice := a5;
               clear_file_list_choice := a6;
               display_stats_choice := a7;
               max_frames_multiplier_choice := a8;
               checkpoints_paths_choice := text;
               UI_theme_choice := a10;
               queue_color_scheme_choice := a11;
               quantization_choice := a12;
               transformer_dtype_policy_choice := a13;
               mixed_precision_choice := a14;
               text_encoder_quantization_choice := a15;
               VAE_precision_choice := a16;
               compile_choice := a17;
               depth_anything_v2_variant_choice := a18;
               vae_config_choice := a19;
               boost_choice := a20;
               profile_choice := a21;
               preload_in_VRAM_choice := a22;
               enhancer_enabled_choice := a23;
               enhancer_mode_choice := a24;
               mmaudio_enabled_choice := a25;
               video_output_codec_choice := a26;
               image_output_codec_choice := a27;
               audio_output_codec_choice := a28;
               metadata_choice := a29;
               embed_source_images_choice := a30;
               save_path_choice := a31;
               image_save_path_choice := a32;
               notification_sound_enabled_choice := a33;
               notification_sound_volume_choice := a34;
               last_resolution_choice := a35 |})
  | _ => None
  end.

(** [state] as the dict the body subscripts. *)
Definition as_dict (v : pyval) : option dict :=
  match v with VDict items => Some (list_to_map items) | _ => None end.

Definition lift {A} (r : outcome A * World) : (raised + A) * World :=
  match r with
  | (Returned a, w) => (inr a, w)
  | (Raised e, w) => (inl (InBody e), w)
  end.

(** [self._save_changes] called on positional arguments: [state] is the
    first (none: [TypeError]); the lock is tested before the arguments are
    unpacked; [.strip()] of a value that is no [str] raises
    [AttributeError] at line 199, before any effect; subscripting a
    [state] that is no dict raises [TypeError] at line 228, after the
    registry update. *)
Definition _save_changes_call (positional : list pyval) (w : World) : (raised + string) * World :=
  match positional with
  | [] => (inl TypeError, w)
  | state :: args =>
      if lock_config w then (inr locked_notice, w)
      else
        match unpack args with
        | None => (inl ValueError, w)
        | Some (VStr text, form) =>
            match as_dict state with
            | Some d => lift (_save_changes d (form text) w)
            | None =>
                (inl TypeError,
                 installed w (checkpoints_paths (default_checkpoints_paths w) text))
            end
        | Some (_, _) => (inl AttributeError, w)
        end
  end.

(** The form a click submits, each name bound to the component it is
    meant for: [save_path_choice] to [self.video_save_path_choice],
    [last_resolution_choice] to [resolution], every other name to the
    attribute of the same name. *)
Definition form_of (values : component -> pyval) (text : pystr) : FormValues :=
  {| transformer_types_choices := values c_transformer_types_choices;
     model_hierarchy_type_choice := values c_model_hierarchy_type_choice;
     fit_canvas_choice := values c_fit_canvas_choice;
     attention_choice := values c_attention_choice;
     preload_model_policy_choice := values c_preload_model_policy_choice;
     clear_file_list_choice := values c_clear_file_list_choice;
     display_stats_choice := values c_display_stats_choice;
     max_frames_multiplier_choice := values c_max_frames_multiplier_choice;
     checkpoints_paths_choice := text;
     UI_theme_choice := values c_UI_theme_choice;
     queue_color_scheme_choice := values c_queue_color_scheme_choice;
     quantization_choice := values c_quantization_choice;
     transformer_dtype_policy_choice := values c_transformer_dtype_policy_choice;
     mixed_precision_choice := values c_mixed_precision_choice;
     text_encoder_quantization_choice := values c_text_encoder_quantization_choice;
     VAE_precision_choice := values c_VAE_precision_choice;
     compile_choice := values c_compile_choice;
     depth_anything_v2_variant_choice := values c_depth_anything_v2_variant_choice;
     vae_config_choice := values c_vae_config_choice;
     boost_choice := values c_boost_choice;
     profile_choice := values c_profile_choice;
     preload_in_VRAM_choice := values c_preload_in_VRAM_choice;
     enhancer_enabled_choice := values c_enhancer_enabled_choice;
     enhancer_mode_choice := values c_enhancer_mode_choice;
     mmaudio_enabled_choice := values c_mmaudio_enabled_choice;
     video_output_codec_choice := values c_video_output_codec_choice;
     image_output_codec_choice := values c_image_output_codec_choice;
     audio_output_codec_choice := values c_audio_output_codec_choice;
     metadata_choice := values c_metadata_choice;
     embed_source_images_choice := values c_embed_source_images_choice;
     save_path_choice := values c_video_save_path_choice;
     image_save_path_choice := values c_image_save_path_choice;
     notification_sound_enabled_choice := values c_notification_sound_enabled_choice;
     notification_sound_volume_choice := values c_notification_sound_volume_choice;
     last_resolution_choice := values c_resolution |}.

(** The keys of the saved record and the component whose value a click
    stores under each. *)
Definition stored_component : list (string * component) :=
  [ ("attention_mode", c_attention_choice);
    ("transformer_types", c_transformer_types_choices);
    ("text_encoder_quantization", c_text_encoder_quantization_choice);
    ("save_path", c_video_save_path_choice);
    ("image_save_path", c_image_save_path_choice);
    ("compile", c_compile_choice);
    ("profile", c_profile_choice);
    ("vae_config", c_vae_config_choice);
    ("vae_precision", c_VAE_precision_choice);
    ("mixed_precision", c_mixed_precision_choice);
    ("metadata_type", c_metadata_choice);
    ("transformer_quantization", c_quantization_choice);
    ("transformer_dtype_policy", c_transformer_dtype_policy_choice);
    ("boost", c_boost_choice);
    ("clear_file_list", c_clear_file_list_choice);
    ("preload_model_policy", c_preload_model_policy_choice);
    ("UI_theme", c_UI_theme_choice);
    ("fit_canvas", c_fit_canvas_choice);
    ("enhancer_enabled", c_enhancer_enabled_choice);
    ("enhancer_mode", c_enhancer_mode_choice);
    ("mmaudio_enabled", c_mmaudio_enabled_choice);
    ("preload_in_VRAM", c_preload_in_VRAM_choice);
    ("depth_anything_v2_variant", c_depth_anything_v2_variant_choice);
    ("notification_sound_enabled", c_notification_sound_enabled_choice);
    ("notification_sound_volume", c_notification_sound_volume_choice);
    ("max_frames_multiplier", c_max_frames_multiplier_choice);
    ("display_stats", c_display_stats_choice);
    ("video_output_codec", c_video_output_codec_choice);
    ("image_output_codec", c_image_output_codec_choice);
    ("audio_output_codec", c_audio_output_codec_choice);
    ("model_hierarchy_type", c_model_hierarchy_type_choice);
    ("queue_color_scheme", c_queue_color_scheme_choice);
    ("embed_source_images", c_embed_source_images_choice);
    ("last_resolution_choice", c_resolution) ].

(** A path that can be shown on a line of its own and read back: well
    formed and without a newline. *)
Definition line_ok (p : pystr) : bool :=
  path_ok p && negb (existsb (fun c => (c =? LF)%N) p).

(** What no handler changes from [w] to [w']: the lock, the default
    path list, the name of the configuration file and every other file;
    and the calls already made stay, in order. *)
Definition frame (w w' : World) : Prop :=
  lock_config w' = lock_config w
  /\ default_checkpoints_paths w' = default_checkpoints_paths w
  /\ server_config_filename w' = server_config_filename w
  /\ (forall path, path <> server_config_filename w ->
                   files w' !! path = files w !! path)
  /\ exists cs, calls w' = calls w ++ cs.

(** The first key of [state_keys] that [state] lacks. *)
Definition first_missing (state : dict) : option string :=
  List.find (fun k => negb (bool_decide (is_Some (state !! k)))) state_keys.

End Ui.

(** ** Sample clicks *)

Module UiSample.
Import PyStr Plugin Ui.

(** The items of a [state] dict with the five keys. *)
Definition state_items : list (string * pyval) :=
  [("model_type", VStr (py "t2v"));
   ("last_model_per_family", VDict []);
   ("last_model_per_type", VDict []);
   ("advanced", VBool false);
   ("last_resolution_per_group", VDict [])].

(** The values of the components at a click; [folders] is the value of
    the checkpoint folders box and [state] that of the host's state. *)
Definition values (state folders : pyval) (c : component) : pyval :=
  match c with
  | c_state => state
  | c_checkpoints_paths_choice => folders
  | c_attention_choice => VStr (py "sage2")
  | c_compile_choice => VStr (py "transformer")
  | c_video_save_path_choice => VStr (py "videos")
  | c_image_save_path_choice => VStr (py "images")
  | c_resolution => VStr (py "832x480")
  | c_embed_source_images_choice => VBool true
  | c_transformer_types_choices => VList []
  | _ => VInt 1
  end.

End UiSample.

(** ** Facts about the string operations *)

Module PyStrFacts.
Import PyStr.

Lemma isspace_CR : isspace CR = true.
Proof. reflexivity. Qed.

Lemma isspace_LF : isspace LF = true.
Proof. reflexivity. Qed.

Lemma lstrip_nil_iff s : lstrip s = [] <-> forallb isspace s = true.
Proof.
  induction s as [|c s IH]; simpl; [tauto|].
  destruct (isspace c); simpl; [exact IH|].
  split; discriminate.
Qed.

Lemma forallb_rev {A} (p : A -> bool) l :
  forallb p (rev l) = forallb p l.
Proof.
  induction l as [|a l IH]; simpl; [reflexivity|].
  rewrite forallb_app, IH. simpl. rewrite andb_true_r. apply andb_comm.
Qed.

Lemma rstrip_nil_iff s : rstrip s = [] <-> forallb isspace s = true.
Proof.
  unfold rstrip. rewrite <- (forallb_rev isspace s), <- lstrip_nil_iff.
  split; intros H.
  - apply (f_equal (@rev _)) in H. rewrite rev_involutive in H. exact H.
  - rewrite H. reflexivity.
Qed.

Lemma lstrip_suffix s : exists pre, s = pre ++ lstrip s /\ forallb isspace pre = true.
Proof.
  induction s as [|c s [pre [E F]]]; simpl.
  - exists []. split; reflexivity.
  - destruct (isspace c) eqn:Hc.
    + exists (c :: pre). simpl. rewrite Hc, F. split; [congruence|reflexivity].
    + exists []. split; reflexivity.
Qed.

Lemma rstrip_prefix s : exists post, s = rstrip s ++ post /\ forallb isspace post = true.
Proof.
  unfold rstrip. destruct (lstrip_suffix (rev s)) as [pre [E F]].
  exists (rev pre). split.
  - rewrite <- rev_app_distr, <- E, rev_involutive. reflexivity.
  - rewrite forallb_rev. exact F.
Qed.

(** [strip] keeps a middle segment and drops whitespace only. *)
Lemma strip_decompose s :
  exists pre post,
    s = pre ++ strip s ++ post
    /\ forallb isspace pre = true /\ forallb isspace post = true.
Proof.
  destruct (lstrip_suffix s) as [pre [E F]].
  destruct (rstrip_prefix (lstrip s)) as [post [E' F']].
  exists pre, post. unfold strip. rewrite <- E', <- E. auto.
Qed.

Lemma strip_nil_iff s : strip s = [] <-> forallb isspace s = true.
Proof.
  unfold strip. rewrite rstrip_nil_iff. split; intros H.
  - destruct (lstrip_suffix s) as [pre [E F]].
    rewrite E, forallb_app, F, H. reflexivity.
  - destruct (lstrip_suffix s) as [pre [E F]].
    rewrite E, forallb_app in H. apply andb_true_iff in H. tauto.
Qed.

Lemma in_forallb_false {A} (p : A -> bool) l x :
  In x l -> p x = false -> forallb p l = false.
Proof.
  intros Hin Hp. destruct (forallb p l) eqn:E; [|reflexivity].
  rewrite forallb_forall in E. rewrite (E x Hin) in Hp. discriminate.
Qed.

Lemma forallb_false_in {A} (p : A -> bool) l :
  forallb p l = false -> exists x, In x l /\ p x = false.
Proof.
  induction l as [|a l IH]; simpl; [discriminate|].
  destruct (p a) eqn:Ha; simpl.
  - intros H. destruct (IH H) as [x [Hin Hx]]. exists x. auto.
  - intros _. exists a. auto.
Qed.

Lemma strip_In s c : In c (strip s) -> In c s.
Proof.
  destruct (strip_decompose s) as [pre [post [E _]]].
  intros H. rewrite E. apply in_or_app. right. apply in_or_app. auto.
Qed.

Lemma strip_nonnil_iff s :
  strip s <> [] <-> exists c, In c s /\ isspace c = false.
Proof.
  rewrite strip_nil_iff. split.
  - intros H. apply forallb_false_in. destruct (forallb isspace s); congruence.
  - intros [c [Hin Hc]] H. rewrite (in_forallb_false _ _ _ Hin Hc) in H.
    discriminate.
Qed.

Lemma lstrip_head s c t : lstrip s = c :: t -> isspace c = false.
Proof.
  induction s as [|a s IH]; simpl; [discriminate|].
  destruct (isspace a) eqn:Ha; [exact IH|].
  intros H. injection H as -> _. exact Ha.
Qed.

Lemma rstrip_last s d : rstrip s <> [] -> isspace (List.last (rstrip s) d) = false.
Proof.
  unfold rstrip. destruct (lstrip (rev s)) as [|c t] eqn:E.
  - intros H. destruct H. reflexivity.
  - intros _. simpl. rewrite last_last. exact (lstrip_head _ _ _ E).
Qed.

Lemma rstrip_keeps_head c s :
  isspace c = false -> exists t, rstrip (c :: s) = c :: t.
Proof.
  intros Hc. destruct (rstrip_prefix (c :: s)) as [post [E F]].
  destruct (rstrip (c :: s)) as [|a t].
  - simpl in E. subst post. simpl in F. rewrite Hc in F. discriminate.
  - simpl in E. injection E as <- _. exists t. reflexivity.
Qed.

(** The result of [strip] has no whitespace at either end. *)
Lemma strip_trimmed s : trimmed (strip s) = true.
Proof.
  unfold strip. destruct (lstrip s) as [|c t] eqn:E; [reflexivity|].
  pose proof (lstrip_head _ _ _ E) as Hc.
  destruct (rstrip_keeps_head c t Hc) as [t' Ht'].
  pose proof (rstrip_last (c :: t) c) as Hl. rewrite Ht' in *.
  unfold trimmed. rewrite Hc, Hl by discriminate. reflexivity.
Qed.

Lemma replace_nil_filter old s :
  replace old [] s = List.filter (fun c => negb (c =? old)%N) s.
Proof.
  induction s as [|c s IH]; simpl; [reflexivity|].
  destruct (c =? old)%N; simpl; rewrite IH; reflexivity.
Qed.

Lemma replace_nil_In old s c :
  In c (replace old [] s) <-> In c s /\ c <> old.
Proof.
  rewrite replace_nil_filter, filter_In, negb_true_iff, N.eqb_neq. tauto.
Qed.

Lemma split_nonnil sep s : split sep s <> [].
Proof.
  destruct s as [|c s]; simpl; [discriminate|].
  destruct (c =? sep)%N; [discriminate|].
  destruct (split sep s); discriminate.
Qed.

(** [sep.join(s.split(sep)) == s] *)
Lemma join_split sep s : join sep (split sep s) = s.
Proof.
  induction s as [|c s IH]; simpl; [reflexivity|].
  destruct (c =? sep)%N eqn:E.
  - apply N.eqb_eq in E. subst c.
    pose proof (split_nonnil sep s) as Hn.
    destruct (split sep s) as [|p ps]; [congruence|].
    simpl. simpl in IH. rewrite IH. reflexivity.
  - pose proof (split_nonnil sep s) as Hn.
    destruct (split sep s) as [|p ps]; [congruence|].
    destruct ps as [|q qs]; simpl in *; congruence.
Qed.

(** No piece of a split contains the separator. *)
Lemma split_no_sep sep s piece :
  In piece (split sep s) -> ~ In sep piece.
Proof.
  revert piece. induction s as [|c s IH]; simpl; intros piece.
  - intros [<-|[]]. simpl. tauto.
  - destruct (c =? sep)%N eqn:E.
    + intros [<-|H]; [simpl; tauto|]. auto.
    + apply N.eqb_neq in E.
      destruct (split sep s) as [|p ps].
      * intros [<-|[]]. simpl. intros [H|[]]. congruence.
      * intros [<-|H].
        -- simpl. intros [H|H]; [congruence|]. exact (IH p (or_introl eq_refl) H).
        -- exact (IH piece (or_intror H)).
Qed.

(** Every character of a piece is a character of the text. *)
Lemma split_In_text sep s piece c :
  In piece (split sep s) -> In c piece -> In c s.
Proof.
  revert piece. induction s as [|a s IH]; simpl; intros piece.
  - intros [<-|[]] [].
  - destruct (a =? sep)%N.
    + intros [<-|H] Hc; [destruct Hc|]. right. eauto.
    + destruct (split sep s) as [|p ps].
      * intros [<-|[]] [->|[]]. auto.
      * intros [<-|H] Hc.
        -- destruct Hc as [->|Hc]; [auto|]. right. apply (IH p); simpl; auto.
        -- right. apply (IH piece); simpl; auto.
Qed.

(** Every character of the text other than the separator is in a piece. *)
Lemma split_In_piece sep s c :
  In c s -> c <> sep -> exists piece, In piece (split sep s) /\ In c piece.
Proof.
  intros Hin Hne. induction s as [|a s IH]; simpl in *; [tauto|].
  pose proof (split_nonnil sep s) as Hn.
  destruct (a =? sep)%N eqn:E.
  - apply N.eqb_eq in E. subst a.
    destruct Hin as [->|Hin]; [congruence|].
    destruct (IH Hin) as [piece [H1 H2]]. exists piece. simpl. auto.
  - destruct (split sep s) as [|p ps]; [congruence|].
    destruct Hin as [->|Hin].
    + exists (c :: p). simpl. auto.
    + destruct (IH Hin) as [piece [[<-|H1] H2]].
      * exists (a :: p). simpl. auto.
      * exists piece. simpl. auto.
Qed.

Lemma map_filter_swap {A B} (g : A -> B) (p : B -> bool) l :
  map g (List.filter (fun x => p (g x)) l) = List.filter p (map g l).
Proof.
  induction l as [|a l IH]; simpl; [reflexivity|].
  destruct (p (g a)); simpl; congruence.
Qed.

End PyStrFacts.


(** ** The path list of a submission *)

Section PathList.
Import PyStr Plugin Spec PyStrFacts.

Lemma filter_nil_iff {A} (p : A -> bool) l :
  List.filter p l = [] <-> forall x, In x l -> p x = false.
Proof.
  induction l as [|a l IH]; simpl; [tauto|].
  destruct (p a) eqn:Ha.
  - split; [discriminate|]. intros H. specialize (H a (or_introl eq_refl)).
    congruence.
  - rewrite IH. split; [intros H x [<-|Hx]; auto|intros H x Hx; auto].
Qed.

Lemma nonempty_false_iff s : nonempty s = false <-> s = [].
Proof. destruct s; simpl; split; congruence. Qed.

Lemma nonempty_length s : nonempty s = (0 <? length s)%nat.
Proof. destruct s; reflexivity. Qed.

(** The normalized list is empty exactly for a blank text. *)
Lemma normalize_nil_iff text : normalize text = [] <-> strip text = [].
Proof.
  unfold normalize. rewrite filter_nil_iff. split.
  - intros H. destruct (strip text) as [|c0 t0] eqn:E; [reflexivity|].
    assert (Hne : strip text <> []) by (rewrite E; discriminate).
    apply strip_nonnil_iff in Hne. destruct Hne as [c [Hin Hc]].
    assert (c <> LF) as Hlf by (intros ->; discriminate).
    destruct (split_In_piece LF text c Hin Hlf) as [piece [Hp Hcp]].
    specialize (H (strip piece) (in_map strip _ _ Hp)).
    apply nonempty_false_iff in H.
    assert (strip piece <> []) as Hn
      by (apply strip_nonnil_iff; exists c; auto).
    congruence.
  - intros H p Hp. apply in_map_iff in Hp. destruct Hp as [piece [<- Hp]].
    apply nonempty_false_iff, strip_nil_iff, forallb_forall.
    intros c Hc. apply strip_nil_iff in H.
    rewrite forallb_forall in H. apply H.
    exact (split_In_text LF text piece c Hp Hc).
Qed.

Lemma remove_cr_In text c : In c (remove_cr text) <-> In c text /\ c <> CR.
Proof.
  unfold remove_cr. rewrite filter_In, negb_true_iff, N.eqb_neq. tauto.
Qed.

Lemma strip_remove_cr_nil_iff text :
  strip (remove_cr text) = [] <-> strip text = [].
Proof.
  rewrite !strip_nil_iff, !forallb_forall. split; intros H c Hc.
  - destruct (N.eq_dec c CR) as [->|Hne]; [reflexivity|].
    apply H, remove_cr_In. auto.
  - apply H. apply remove_cr_In in Hc. tauto.
Qed.

Lemma paths_nil_iff text : paths text = [] <-> strip text = [].
Proof.
  unfold paths. rewrite normalize_nil_iff. apply strip_remove_cr_nil_iff.
Qed.

(** Every path of the list is well formed. *)
Lemma paths_path_ok text p : In p (paths text) -> path_ok p = true.
Proof.
  unfold paths, normalize. rewrite filter_In, in_map_iff.
  intros [[piece [<- Hp]] Hne]. unfold path_ok.
  rewrite Hne, strip_trimmed. simpl. apply negb_true_iff.
  destruct (existsb (fun c => (c =? CR)%N) (strip piece)) eqn:E; [|reflexivity].
  apply existsb_exists in E. destruct E as [c [Hc Heq]].
  apply N.eqb_eq in Heq. subst c.
  apply strip_In in Hc.
  pose proof (split_In_text LF _ piece CR Hp Hc) as Hin.
  apply remove_cr_In in Hin. tauto.
Qed.

Lemma paths_paths_ok text : strip text <> [] -> paths_ok (paths text) = true.
Proof.
  intros H. unfold paths_ok.
  destruct (paths text) as [|p ps] eqn:E.
  - apply paths_nil_iff in E. congruence.
  - rewrite <- E. apply forallb_forall. apply paths_path_ok.
Qed.

(** The two branches of lines 199-203. *)
Lemma checkpoints_paths_blank default text :
  strip text = [] -> checkpoints_paths default text = default.
Proof. intros H. unfold checkpoints_paths. rewrite H. reflexivity. Qed.

Lemma checkpoints_paths_nonblank default text :
  strip text <> [] -> checkpoints_paths default text = paths text.
Proof.
  intros H. unfold checkpoints_paths.
  destruct (strip text) as [|c t] eqn:E; [congruence|]. simpl.
  unfold paths, normalize, remove_cr. rewrite replace_nil_filter.
  rewrite <- map_filter_swap. f_equal. apply filter_ext.
  intros p. symmetry. apply nonempty_length.
Qed.

End PathList.

(** ** Running the handlers *)

Section Handlers.
Import PyStr Plugin Spec PyStrFacts.

Lemma getitem_Some (d : dict) k v w :
  d !! k = Some v -> getitem d k w = (Returned v, w).
Proof. intros H. unfold getitem. rewrite H. reflexivity. Qed.

Lemma getitem_None (d : dict) k w :
  d !! k = None -> getitem d k w = (Raised (KeyError k), w).
Proof. intros H. unfold getitem. rewrite H. reflexivity. Qed.

Lemma has_keys_lookup (state : dict) :
  has_keys state = true ->
  exists v1 v2 v3 v4 v5,
    state !! "model_type" = Some v1
    /\ state !! "last_model_per_family" = Some v2
    /\ state !! "last_model_per_type" = Some v3
    /\ state !! "advanced" = Some v4
    /\ state !! "last_resolution_per_group" = Some v5.
Proof.
  unfold has_keys, state_keys. simpl. rewrite !andb_true_iff.
  rewrite !bool_decide_eq_true.
  intros ([v1 H1] & [v2 H2] & [v3 H3] & [v4 H4] & [v5 H5] & _).
  exists v1, v2, v3, v4, v5. auto.
Qed.

(** With the five keys in [state], the dict display is built and has
    the keys of [display_keys]. *)
Lemma new_server_config_returns (state : dict) f paths w :
  has_keys state = true ->
  exists d, new_server_config state f paths w = (Returned d, w)
            /\ is_display f paths d.
Proof.
  intros H.
  destruct (has_keys_lookup state H)
    as (v1 & v2 & v3 & v4 & v5 & H1 & H2 & H3 & H4 & H5).
  eexists. split.
  - unfold new_server_config, mbind, M_bind.
    rewrite (getitem_Some _ _ _ _ H1), (getitem_Some _ _ _ _ H2),
      (getitem_Some _ _ _ _ H3), (getitem_Some _ _ _ _ H4),
      (getitem_Some _ _ _ _ H5).
    reflexivity.
  - repeat split; vm_compute; reflexivity.
Qed.

(** The run of an unlocked save on a complete [state]. *)
Lemma save_changes_unlocked w (state : dict) f :
  lock_config w = false ->
  has_keys state = true ->
  let paths := checkpoints_paths (default_checkpoints_paths w)
                                 (checkpoints_paths_choice f) in
  exists d,
    is_display f paths d
    /\ _save_changes state f w
       = (Returned saved_notice,
          saved w paths (carry_over "enabled_plugins" (server_config w) d)).
Proof.
  intros Hlock Hkeys paths.
  destruct (new_server_config_returns state f paths
              (fst (snd (set_checkpoints_paths paths w), tt)) Hkeys)
    as [d [Hd Hdisp]].
  exists d. split; [exact Hdisp|].
  unfold _save_changes, mbind, M_bind, world. rewrite Hlock.
  fold paths.
  unfold set_checkpoints_paths, mbind, M_bind, world, put in *.
  simpl in Hd. rewrite Hd. simpl. rewrite Hlock.
  unfold write_json, server_config_update, mbind, M_bind, world, put,
    mret, M_ret, saved.
  simpl. rewrite <- app_assoc, ?Hlock. reflexivity.
Qed.

(** Under the lock nothing runs past line 180. *)
Lemma save_changes_locked_run w (state : dict) f :
  lock_config w = true ->
  _save_changes state f w = (Returned locked_notice, w).
Proof.
  intros Hlock. unfold _save_changes, mbind, M_bind, world.
  rewrite Hlock. reflexivity.
Qed.

Lemma has_keys_missing (state : dict) :
  has_keys state = false ->
  exists k, In k state_keys /\ state !! k = None.
Proof.
  unfold has_keys. intros H.
  destruct (forallb_false_in _ _ H) as [k [Hin Hk]].
  exists k. split; [exact Hin|].
  apply bool_decide_eq_false in Hk.
  destruct (state !! k) eqn:E; [|reflexivity].
  destruct Hk. eexists. reflexivity.
Qed.

(** The dict display reads the world and leaves it as it is. *)
Lemma new_server_config_world (state : dict) f paths w :
  snd (new_server_config state f paths w) = w.
Proof.
  unfold new_server_config, mbind, M_bind, getitem, mret, M_ret, raise.
  destruct (state !! "model_type"); [cbv beta iota|reflexivity].
  destruct (state !! "last_model_per_family"); [cbv beta iota|reflexivity].
  destruct (state !! "last_model_per_type"); [cbv beta iota|reflexivity].
  destruct (state !! "advanced"); [cbv beta iota|reflexivity].
  destruct (state !! "last_resolution_per_group"); reflexivity.
Qed.

(** Without one of the five keys the display raises [KeyError]. *)
Lemma new_server_config_raises (state : dict) f paths w :
  has_keys state = false ->
  exists k, In k state_keys /\ state !! k = None
            /\ fst (new_server_config state f paths w) = Raised (KeyError k).
Proof.
  intros H. destruct (has_keys_missing state H) as [k0 [Hin0 Hk0]].
  unfold new_server_config, mbind, M_bind, getitem, mret, M_ret, raise.
  destruct (state !! "model_type") eqn:E1; cbv beta iota;
    [|exists "model_type"; repeat split; [compute_done|exact E1]].
  destruct (state !! "last_model_per_family") eqn:E2; cbv beta iota;
    [|exists "last_model_per_family"; repeat split; [compute_done|exact E2]].
  destruct (state !! "last_model_per_type") eqn:E3; cbv beta iota;
    [|exists "last_model_per_type"; repeat split; [compute_done|exact E3]].
  destruct (state !! "advanced") eqn:E4; cbv beta iota;
    [|exists "advanced"; repeat split; [compute_done|exact E4]].
  destruct (state !! "last_resolution_per_group") eqn:E5; cbv beta iota;
    [|exists "last_resolution_per_group"; repeat split;
      [compute_done|exact E5]].
  exfalso. unfold state_keys in Hin0. simpl in Hin0.
  destruct Hin0 as [<-|[<-|[<-|[<-|[<-|[]]]]]]; congruence.
Qed.

(** The run of an unlocked save on an incomplete [state]: the registry
    is updated, then the display raises and nothing is written. *)
Lemma save_changes_raises w (state : dict) f :
  lock_config w = false ->
  has_keys state = false ->
  let paths := checkpoints_paths (default_checkpoints_paths w)
                                 (checkpoints_paths_choice f) in
  exists k,
    In k state_keys /\ state !! k = None
    /\ _save_changes state f w = (Raised (KeyError k), installed w paths).
Proof.
  intros Hlock Hkeys paths.
  destruct (new_server_config_raises state f paths (installed w paths) Hkeys)
    as (k & Hin & Hk & Hr).
  pose proof (new_server_config_world state f paths (installed w paths)) as Hw.
  exists k. split; [exact Hin|]. split; [exact Hk|].
  unfold _save_changes, mbind, M_bind, world. rewrite Hlock.
  fold paths.
  unfold set_checkpoints_paths, mbind, M_bind, world, put.
  fold (installed w paths).
  destruct (new_server_config state f paths (installed w paths)) as [o w1].
  simpl in Hr, Hw. subst o w1. reflexivity.
Qed.

(** The registry after an unlocked save, whatever the [state]. *)
Lemma save_changes_registry w (state : dict) f :
  lock_config w = false ->
  let paths := checkpoints_paths (default_checkpoints_paths w)
                                 (checkpoints_paths_choice f) in
  let w' := snd (_save_changes state f w) in
  fl_checkpoints_paths w' = paths
  /\ In (SetCheckpointsPaths paths) (calls w').
Proof.
  intros Hlock paths. destruct (has_keys state) eqn:Hkeys.
  - destruct (save_changes_unlocked w state f Hlock Hkeys) as [d [_ ->]].
    simpl. split; [reflexivity|]. apply in_or_app. right. simpl. auto.
  - destruct (save_changes_raises w state f Hlock Hkeys) as (k & _ & _ & ->).
    simpl. split; [reflexivity|]. apply in_or_app. right. simpl. auto.
Qed.

Lemma carry_over_lookup_ne key (src dst : dict) k :
  k <> key -> carry_over key src dst !! k = dst !! k.
Proof.
  intros H. unfold carry_over. destruct (src !! key); [|reflexivity].
  apply lookup_insert_ne. congruence.
Qed.

Lemma carry_over_lookup_eq key (src dst : dict) :
  dst !! key = None -> carry_over key src dst !! key = src !! key.
Proof.
  intros H. unfold carry_over. destruct (src !! key) eqn:E; [|exact H].
  apply lookup_insert_eq.
Qed.

Lemma enabled_plugins_fresh : "enabled_plugins" ∉ display_keys.
Proof. compute_done. Qed.

(** The record an unlocked save writes, and what it holds under the
    keys the claims name. *)
Lemma save_changes_record w (state : dict) f :
  lock_config w = false ->
  has_keys state = true ->
  let paths := checkpoints_paths (default_checkpoints_paths w)
                                 (checkpoints_paths_choice f) in
  exists doc,
    _save_changes state f w = (Returned saved_notice, saved w paths doc)
    /\ doc !! "attention_mode" = Some (attention_choice f)
    /\ doc !! "compile" = Some (compile_choice f)
    /\ doc !! "checkpoints_paths" = Some (paths_value paths)
    /\ doc !! "enabled_plugins" = server_config w !! "enabled_plugins"
    /\ (forall k, k <> "enabled_plugins" -> (k ∈ dom doc <-> k ∈ display_keys)).
Proof.
  intros Hlock Hkeys paths.
  destruct (save_changes_unlocked w state f Hlock Hkeys)
    as [d [(Hdom & Ha & Hc & Hp) Hrun]].
  exists (carry_over "enabled_plugins" (server_config w) d).
  split; [exact Hrun|].
  rewrite !carry_over_lookup_ne by discriminate.
  repeat (split; [assumption|]). split.
  - apply carry_over_lookup_eq, not_elem_of_dom. rewrite Hdom.
    exact enabled_plugins_fresh.
  - intros k Hk. rewrite <- Hdom, !elem_of_dom.
    rewrite carry_over_lookup_ne by exact Hk. reflexivity.
Qed.

End Handlers.

(** ** The properties of the handlers *)

Section Properties.
Import PyStr Plugin Spec PyStrFacts.

(** Every run of [_save_changes] ends in one of three ways: the locked
    notice and an untouched world; a [KeyError] for one of the five
    [state] keys after the registry update; or the saved notice, with a
    record written that holds the submitted attention mode and compile
    choice. *)
Lemma save_changes_outcomes w (state : dict) f :
  let paths := checkpoints_paths (default_checkpoints_paths w)
                                 (checkpoints_paths_choice f) in
  (lock_config w = true
   /\ _save_changes state f w = (Returned locked_notice, w))
  \/ (exists k, In k state_keys /\ state !! k = None
      /\ _save_changes state f w = (Raised (KeyError k), installed w paths))
  \/ (exists doc,
        _save_changes state f w = (Returned saved_notice, saved w paths doc)
        /\ doc !! "attention_mode" = Some (attention_choice f)
        /\ doc !! "compile" = Some (compile_choice f)).
Proof.
  intros paths. destruct (lock_config w) eqn:Hlock.
  - left. split; [reflexivity|]. apply save_changes_locked_run, Hlock.
  - right. destruct (has_keys state) eqn:Hkeys.
    + right.
      destruct (save_changes_record w state f Hlock Hkeys)
        as (doc & Hrun & Ha & Hc & _).
      exists doc. auto.
    + left. exact (save_changes_raises w state f Hlock Hkeys).
Qed.

(** C1: with the administrative lock ([args.lock_config]) set,
    [_save_changes] returns the red locked notice and ends in the world
    it started in: no file is written, no host call is made, and
    [server_config] and the checkpoints-paths registry are unchanged. *)
Theorem save_changes_locked w (state : dict) f :
  lock_config w = true ->
  _save_changes state f w = (Returned locked_notice, w).
Proof. apply save_changes_locked_run. Qed.

Lemma save_changes_locked_witness :
  lock_config (Sample.world true Sample.prior Sample.defaults) = true
  /\ _save_changes Sample.state
       (Sample.form (VStr (py "sage2")) (VStr (py "transformer"))
                    Sample.two_folders)
       (Sample.world true Sample.prior Sample.defaults)
     = (Returned locked_notice,
        Sample.world true Sample.prior Sample.defaults).
Proof.
  split; [reflexivity|]. apply save_changes_locked. reflexivity.
Defined.

(** C2, evaluated on a submission of "sage2" and "transformer" over a
    persisted "sdpa" and empty compile flag: with [args.lock_config] set,
    the one flag lines 238-240 test, the handler returns at line 180 and
    writes nothing; with it clear, the record written holds the
    submitted values. The persisted values are written in neither run. *)
Theorem locked_fields_not_retained :
  let sub := Sample.form (VStr (py "sage2")) (VStr (py "transformer"))
                         Sample.two_folders in
  Sample.prior !! "attention_mode" = Some (VStr (py "sdpa"))
  /\ Sample.prior !! "compile" = Some (VStr [])
  /\ _save_changes Sample.state sub
       (Sample.world true Sample.prior Sample.defaults)
     = (Returned locked_notice,
        Sample.world true Sample.prior Sample.defaults)
  /\ exists doc,
       files (snd (_save_changes Sample.state sub
                     (Sample.world false Sample.prior Sample.defaults)))
         !! "wgp_config.json" = Some doc
       /\ doc !! "attention_mode" = Some (VStr (py "sage2"))
       /\ doc !! "compile" = Some (VStr (py "transformer")).
Proof.
  intros sub. split; [reflexivity|]. split; [reflexivity|]. split.
  - apply save_changes_locked_run. reflexivity.
  - destruct (save_changes_record
                (Sample.world false Sample.prior Sample.defaults)
                Sample.state sub eq_refl eq_refl)
      as (doc & Hrun & Ha & Hc & _).
    exists doc. rewrite Hrun. simpl. rewrite lookup_insert_eq. auto.
Qed.

(** C3: with the lock clear, a submitted text whose lines are all empty
    once split on newlines and trimmed (any text of whitespace only is
    one) makes [_save_changes] install the default path list in the
    registry and, when the save completes, write it under
    "checkpoints_paths". *)
Theorem blank_submission_uses_default w (state : dict) f :
  lock_config w = false ->
  normalize (checkpoints_paths_choice f) = []
  \/ forallb isspace (checkpoints_paths_choice f) = true ->
  let w' := snd (_save_changes state f w) in
  fl_checkpoints_paths w' = default_checkpoints_paths w
  /\ In (SetCheckpointsPaths (default_checkpoints_paths w)) (calls w')
  /\ (has_keys state = true ->
      exists doc,
        files w' !! server_config_filename w = Some doc
        /\ doc !! "checkpoints_paths"
           = Some (paths_value (default_checkpoints_paths w))).
Proof.
  intros Hlock Hblank.
  assert (strip (checkpoints_paths_choice f) = []) as Hs.
  { destruct Hblank as [H|H].
    - apply normalize_nil_iff, H.
    - apply strip_nil_iff, H. }
  pose proof (checkpoints_paths_blank (default_checkpoints_paths w) _ Hs) as E.
  destruct (save_changes_registry w state f Hlock) as [Hreg Hcall].
  rewrite E in Hreg, Hcall. cbv zeta.
  split; [exact Hreg|]. split; [exact Hcall|].
  intros Hkeys.
  destruct (save_changes_record w state f Hlock Hkeys)
    as (doc & Hrun & _ & _ & Hp & _).
  exists doc. rewrite Hrun. simpl. rewrite lookup_insert_eq.
  rewrite E in Hp. auto.
Qed.

Lemma blank_submission_uses_default_witness :
  let w := Sample.world false Sample.prior Sample.defaults in
  let f := Sample.form (VStr (py "sdpa")) (VStr []) Sample.blank in
  let w' := snd (_save_changes Sample.state f w) in
  forallb isspace Sample.blank = true
  /\ fl_checkpoints_paths w' = Sample.defaults
  /\ In (SetCheckpointsPaths Sample.defaults) (calls w')
  /\ (has_keys Sample.state = true ->
      exists doc,
        files w' !! "wgp_config.json" = Some doc
        /\ doc !! "checkpoints_paths" = Some (paths_value Sample.defaults)).
Proof.
  intros w f w'. split; [reflexivity|].
  apply (blank_submission_uses_default w Sample.state f).
  - reflexivity.
  - right. reflexivity.
Defined.

(** C4: with the lock clear, a submitted text that is not empty once
    stripped is saved under "checkpoints_paths" as the list obtained by
    removing the carriage returns, splitting on newlines, stripping each
    line and dropping the lines that are then empty, in the order of the
    text. *)
Theorem nonblank_submission_saved w (state : dict) f :
  lock_config w = false ->
  has_keys state = true ->
  strip (checkpoints_paths_choice f) <> [] ->
  exists doc,
    files (snd (_save_changes state f w)) !! server_config_filename w
      = Some doc
    /\ doc !! "checkpoints_paths"
       = Some (paths_value (paths (checkpoints_paths_choice f))).
Proof.
  intros Hlock Hkeys Hs.
  destruct (save_changes_record w state f Hlock Hkeys)
    as (doc & Hrun & _ & _ & Hp & _).
  exists doc. rewrite Hrun. simpl. rewrite lookup_insert_eq.
  rewrite (checkpoints_paths_nonblank _ _ Hs) in Hp. auto.
Qed.

Lemma nonblank_submission_saved_witness :
  let w := Sample.world false Sample.prior Sample.defaults in
  let f := Sample.form (VStr (py "sdpa")) (VStr []) Sample.two_folders in
  paths Sample.two_folders = [py "ckpts"; py "models/extra"]
  /\ exists doc,
       files (snd (_save_changes Sample.state f w)) !! "wgp_config.json"
         = Some doc
       /\ doc !! "checkpoints_paths"
          = Some (paths_value (paths Sample.two_folders)).
Proof.
  intros w f. split; [reflexivity|].
  apply (nonblank_submission_saved w Sample.state f).
  - reflexivity.
  - reflexivity.
  - vm_compute. discriminate.
Defined.

Lemma dom_carry_over key (src dst : dict) :
  dom (carry_over key src dst)
  = dom dst ∪ (if bool_decide (key ∈ dom src) then {[key]} else ∅).
Proof.
  unfold carry_over. destruct (src !! key) eqn:E.
  - rewrite bool_decide_eq_true_2 by (apply elem_of_dom; eauto).
    rewrite dom_insert_L. apply (comm_L (∪)).
  - rewrite bool_decide_eq_false_2 by (apply not_elem_of_dom; exact E).
    symmetry. apply (right_id_L ∅ (∪)).
Qed.

(** The file an unlocked save leaves, and the keys of its record. *)
Lemma save_changes_file w (state : dict) f :
  lock_config w = false ->
  has_keys state = true ->
  exists doc,
    files (snd (_save_changes state f w))
      = <[server_config_filename w := doc]> (files w)
    /\ files (snd (_save_changes state f w)) !! server_config_filename w
       = Some doc
    /\ dom doc
       = display_keys
         ∪ (if bool_decide ("enabled_plugins" ∈ dom (server_config w))
            then {["enabled_plugins"]} else ∅).
Proof.
  intros Hlock Hkeys.
  destruct (save_changes_unlocked w state f Hlock Hkeys)
    as [d [(Hdom & _) Hrun]].
  eexists. rewrite Hrun. cbn [snd saved files].
  split; [reflexivity|]. split; [apply lookup_insert_eq|].
  rewrite dom_carry_over, Hdom. reflexivity.
Qed.

(** C5, as stated, fails: no one key set fits the file of every
    unlocked save, since "enabled_plugins" is written exactly when the
    prior [server_config] has it. *)
Lemma saved_key_set_not_fixed :
  ~ exists S : gset string,
      forall w (state : dict) f,
        lock_config w = false ->
        has_keys state = true ->
        exists doc,
          files (snd (_save_changes state f w)) !! server_config_filename w
            = Some doc
          /\ dom doc = S.
Proof.
  intros [S H].
  pose (f := Sample.form (VStr (py "sdpa")) (VStr []) Sample.blank).
  pose (w1 := Sample.world false Sample.prior Sample.defaults).
  pose (w2 := Sample.world false Sample.with_plugins Sample.defaults).
  destruct (H w1 Sample.state f eq_refl eq_refl) as (d1 & F1 & D1).
  destruct (H w2 Sample.state f eq_refl eq_refl) as (d2 & F2 & D2).
  destruct (save_changes_file w1 Sample.state f eq_refl eq_refl)
    as (e1 & _ & G1 & K1).
  destruct (save_changes_file w2 Sample.state f eq_refl eq_refl)
    as (e2 & _ & G2 & K2).
  rewrite G1 in F1. rewrite G2 in F2.
  injection F1 as ->. injection F2 as ->.
  rewrite D1 in K1. rewrite D2 in K2.
  rewrite bool_decide_eq_false_2 in K1 by compute_done.
  rewrite bool_decide_eq_true_2 in K2 by compute_done.
  assert ("enabled_plugins" ∈ S) as Hin.
  { rewrite K2. apply elem_of_union. right. apply elem_of_singleton.
    reflexivity. }
  rewrite K1 in Hin. apply elem_of_union in Hin.
  destruct Hin as [Hin|Hin].
  - exact (enabled_plugins_fresh Hin).
  - exact (not_elem_of_empty _ Hin).
Qed.

(** C5, amended: an unlocked save replaces the file by the new record
    alone, whatever the file held, and the key set of the record is the
    forty keys of the dict display, together with "enabled_plugins"
    exactly when the prior [server_config] has that key. *)
Theorem saved_file_keys w (state : dict) f :
  lock_config w = false ->
  has_keys state = true ->
  exists doc,
    files (snd (_save_changes state f w))
      = <[server_config_filename w := doc]> (files w)
    /\ files (snd (_save_changes state f w)) !! server_config_filename w
       = Some doc
    /\ dom doc
       = display_keys
         ∪ (if bool_decide ("enabled_plugins" ∈ dom (server_config w))
            then {["enabled_plugins"]} else ∅).
Proof. apply save_changes_file. Qed.

Lemma saved_file_keys_witness :
  let w := Sample.world false Sample.with_plugins Sample.defaults in
  let f := Sample.form (VStr (py "sdpa")) (VStr []) Sample.two_folders in
  exists doc,
    files (snd (_save_changes Sample.state f w))
      = <["wgp_config.json" := doc]> (files w)
    /\ files (snd (_save_changes Sample.state f w)) !! "wgp_config.json"
       = Some doc
    /\ dom doc
       = display_keys
         ∪ (if bool_decide ("enabled_plugins" ∈ dom Sample.with_plugins)
            then {["enabled_plugins"]} else ∅).
Proof.
  intros w f. apply (saved_file_keys w Sample.state f); reflexivity.
Defined.




Lemma log_log w cs1 cs2 : log (log w cs1) cs2 = log w (cs1 ++ cs2).
Proof. unfold log. simpl. rewrite <- app_assoc. reflexivity. Qed.

(** When [_save_changes] returns, [_save_and_restart] drops the
    message, notifies and quits. *)
Lemma save_and_restart_after_return w (state : dict) f msg w1 :
  _save_changes state f w = (Returned msg, w1) ->
  _save_and_restart state f w
  = (Returned tt,
     log w1 [GrInfo "Settings saved. Restarting application...";
             QuitApplication]).
Proof.
  intros H. unfold _save_and_restart, mbind, M_bind. rewrite H.
  unfold host, mbind, M_bind, world, put. simpl.
  rewrite log_log. reflexivity.
Qed.

(** When [_save_changes] raises, so does [_save_and_restart], in the
    same world. *)
Lemma save_and_restart_after_raise w (state : dict) f e w1 :
  _save_changes state f w = (Raised e, w1) ->
  _save_and_restart state f w = (Raised e, w1).
Proof.
  intros H. unfold _save_and_restart, mbind, M_bind. rewrite H. reflexivity.
Qed.

(** C8, as stated, fails: on a [state] without "model_type" and with
    the lock clear, [_save_changes] raises [KeyError], the exception
    leaves [_save_and_restart] and [quit_application] is not called. *)
Lemma restart_skipped_on_key_error :
  let w := Sample.world false Sample.prior Sample.defaults in
  let f := Sample.form (VStr (py "sdpa")) (VStr []) Sample.two_folders in
  fst (_save_and_restart ∅ f w) = Raised (KeyError "model_type")
  /\ ~ In QuitApplication (calls (snd (_save_and_restart ∅ f w))).
Proof.
  intros w f. split; [reflexivity|].
  vm_compute. intros [H|[]]. discriminate.
Qed.

(** C8, amended: whenever [_save_changes] returns, that is, under the
    lock or with the five keys in [state], [_save_and_restart] goes on
    to notify and to call [quit_application], and does nothing else to
    the world [_save_changes] left; under the lock that world is the
    initial one, nothing was written and the locked notice is dropped. *)
Theorem save_and_restart_quits w (state : dict) f :
  lock_config w = true \/ has_keys state = true ->
  exists msg w1,
    _save_changes state f w = (Returned msg, w1)
    /\ _save_and_restart state f w
       = (Returned tt,
          log w1 [GrInfo "Settings saved. Restarting application...";
                  QuitApplication])
    /\ (lock_config w = true -> msg = locked_notice /\ w1 = w).
Proof.
  intros H. destruct (lock_config w) eqn:Hlock.
  - exists locked_notice, w.
    pose proof (save_changes_locked_run w state f Hlock) as Hrun.
    split; [exact Hrun|]. split; [|auto].
    exact (save_and_restart_after_return _ _ _ _ _ Hrun).
  - destruct H as [H|Hkeys]; [discriminate|].
    destruct (save_changes_record w state f Hlock Hkeys) as (doc & Hrun & _).
    eexists _, _. split; [exact Hrun|]. split; [|discriminate].
    exact (save_and_restart_after_return _ _ _ _ _ Hrun).
Qed.

Lemma save_and_restart_quits_witness :
  let w := Sample.world true Sample.prior Sample.defaults in
  let f := Sample.form (VStr (py "sage2")) (VStr (py "transformer"))
                       Sample.two_folders in
  exists msg w1,
    _save_changes Sample.state f w = (Returned msg, w1)
    /\ _save_and_restart Sample.state f w
       = (Returned tt,
          log w1 [GrInfo "Settings saved. Restarting application...";
                  QuitApplication])
    /\ (lock_config w = true -> msg = locked_notice /\ w1 = w).
Proof.
  intros w f. apply (save_and_restart_quits w Sample.state f).
  left. reflexivity.
Defined.

(** C9, as stated, fails: a non-empty default list is installed and
    saved as it is, here with its empty string. *)
Lemma default_paths_taken_verbatim :
  let w := Sample.world false Sample.prior [[]] in
  let f := Sample.form (VStr (py "sdpa")) (VStr []) [] in
  let w' := snd (_save_changes Sample.state f w) in
  default_checkpoints_paths w <> []
  /\ lock_config w = false
  /\ fl_checkpoints_paths w' = [[]]
  /\ (exists doc, files w' !! "wgp_config.json" = Some doc
                  /\ doc !! "checkpoints_paths" = Some (VList [VStr []]))
  /\ paths_ok (fl_checkpoints_paths w') = false.
Proof.
  intros w f w'. split; [discriminate|]. split; [reflexivity|].
  split; [reflexivity|]. split; [|reflexivity].
  destruct (save_changes_record w Sample.state f eq_refl eq_refl)
    as (doc & Hrun & _ & _ & Hp & _).
  exists doc. subst w'. rewrite Hrun. cbn [snd saved files].
  split; [apply lookup_insert_eq|exact Hp].
Qed.

(** C9, amended: the list an unlocked [_save_changes] installs in the
    registry, which is also the one it saves under "checkpoints_paths"
    when the save completes, is non-empty whenever the default list is;
    and it is made of non-empty strings without whitespace at either end
    and without carriage returns whenever the submitted text is not
    blank, whatever the default list, or the default list is made of
    such strings. On a blank text it is the default list as it is. *)
Theorem installed_paths_invariant w (state : dict) f :
  lock_config w = false ->
  let text := checkpoints_paths_choice f in
  let w' := snd (_save_changes state f w) in
  let l := fl_checkpoints_paths w' in
  (default_checkpoints_paths w <> [] -> l <> [])
  /\ (strip text <> []
      \/ forallb path_ok (default_checkpoints_paths w) = true ->
      forallb path_ok l = true)
  /\ (strip text = [] -> l = default_checkpoints_paths w)
  /\ In (SetCheckpointsPaths l) (calls w')
  /\ (has_keys state = true ->
      exists doc,
        files w' !! server_config_filename w = Some doc
        /\ doc !! "checkpoints_paths" = Some (paths_value l)).
Proof.
  intros Hlock text w' l. subst l w' text.
  destruct (save_changes_registry w state f Hlock) as [Hreg Hcall].
  cbv zeta in Hreg, Hcall. rewrite Hreg.
  split; [|split; [|split; [|split; [exact Hcall|]]]].
  - intros Hdef.
    destruct (strip (checkpoints_paths_choice f)) as [|c t] eqn:E.
    + rewrite checkpoints_paths_blank by exact E. exact Hdef.
    + assert (strip (checkpoints_paths_choice f) <> []) as Hne
        by (rewrite E; discriminate).
      rewrite checkpoints_paths_nonblank by exact Hne.
      intros H. apply paths_nil_iff in H. congruence.
  - intros Hok.
    destruct (strip (checkpoints_paths_choice f)) as [|c t] eqn:E.
    + rewrite checkpoints_paths_blank by exact E.
      destruct Hok as [H|H]; [congruence|exact H].
    + assert (strip (checkpoints_paths_choice f) <> []) as Hne
        by (rewrite E; discriminate).
      rewrite checkpoints_paths_nonblank by exact Hne.
      apply forallb_forall. apply paths_path_ok.
  - intros E. apply checkpoints_paths_blank, E.
  - intros Hkeys.
    destruct (save_changes_record w state f Hlock Hkeys)
      as (doc & Hrun & _ & _ & Hp & _).
    exists doc. rewrite Hrun. simpl. rewrite lookup_insert_eq. auto.
Qed.

Lemma installed_paths_invariant_witness :
  let w := Sample.world false Sample.prior Sample.defaults in
  let f := Sample.form (VStr (py "sdpa")) (VStr []) Sample.blank in
  let l := fl_checkpoints_paths (snd (_save_changes Sample.state f w)) in
  l <> [] /\ forallb path_ok l = true /\ l = Sample.defaults.
Proof.
  intros w f l.
  destruct (installed_paths_invariant w Sample.state f eq_refl)
    as (H1 & H2 & H3 & _).
  split; [apply H1; discriminate|].
  split; [apply H2; right; reflexivity|].
  apply H3. reflexivity.
Defined.


End Properties.

(** ** Showing a path list and reading it back *)

Section ShowAndRead.
Import PyStr Plugin Spec PyStrFacts Ui.

Lemma lstrip_id c t : isspace c = false -> lstrip (c :: t) = c :: t.
Proof. intros H. simpl. rewrite H. reflexivity. Qed.

Lemma last_rev_head (p : pystr) d :
  p <> [] -> exists q, rev p = List.last p d :: q.
Proof.
  intros H. destruct (exists_last H) as [q [x ->]].
  rewrite last_last, rev_app_distr. simpl. eauto.
Qed.

(** [strip] leaves a string alone when it has no whitespace at either end. *)
Lemma strip_trimmed_id p : trimmed p = true -> strip p = p.
Proof.
  destruct p as [|c t]; [reflexivity|].
  unfold trimmed. rewrite andb_true_iff, !negb_true_iff. intros [Hc Hl].
  unfold strip. rewrite (lstrip_id c t Hc). unfold rstrip.
  destruct (last_rev_head (c :: t) c) as [q Hq]; [discriminate|].
  rewrite Hq, (lstrip_id _ q Hl), <- Hq. apply rev_involutive.
Qed.

Lemma filter_id {A} (p : A -> bool) l :
  (forall x, In x l -> p x = true) -> List.filter p l = l.
Proof.
  induction l as [|a l IH]; simpl; intros H; [reflexivity|].
  rewrite (H a (or_introl eq_refl)), IH; [reflexivity|]. auto.
Qed.

Lemma map_id_on {A} (g : A -> A) l :
  (forall x, In x l -> g x = x) -> map g l = l.
Proof.
  induction l as [|a l IH]; simpl; intros H; [reflexivity|].
  rewrite (H a (or_introl eq_refl)), IH; [reflexivity|]. auto.
Qed.

Lemma split_without_sep sep p : ~ In sep p -> split sep p = [p].
Proof.
  induction p as [|c p IH]; simpl; intros H; [reflexivity|].
  destruct (c =? sep)%N eqn:E.
  - apply N.eqb_eq in E. tauto.
  - rewrite IH by tauto. reflexivity.
Qed.

Lemma split_app_sep sep p rest :
  ~ In sep p -> split sep (p ++ sep :: rest) = p :: split sep rest.
Proof.
  induction p as [|c p IH]; simpl; intros H.
  - rewrite N.eqb_refl. reflexivity.
  - destruct (c =? sep)%N eqn:E.
    + apply N.eqb_eq in E. tauto.
    + rewrite IH by tauto. reflexivity.
Qed.

(** [sep.join(pieces).split(sep) == pieces] for pieces without [sep]. *)
Lemma split_join sep l :
  l <> [] -> (forall p, In p l -> ~ In sep p) -> split sep (join sep l) = l.
Proof.
  induction l as [|p l IH]; [congruence|]. intros _ H.
  destruct l as [|q r].
  - simpl. apply split_without_sep, H. simpl. auto.
  - change (join sep (p :: q :: r)) with (p ++ sep :: join sep (q :: r)).
    rewrite split_app_sep by (apply H; simpl; auto).
    rewrite IH; [reflexivity|discriminate|].
    intros x Hx. apply H. simpl. simpl in Hx. tauto.
Qed.

Lemma In_join sep l c :
  In c (join sep l) -> c = sep \/ exists p, In p l /\ In c p.
Proof.
  induction l as [|p l IH]; [intros []|].
  destruct l as [|q r].
  - simpl. intros H. right. exists p. auto.
  - change (join sep (p :: q :: r)) with (p ++ sep :: join sep (q :: r)).
    intros H. apply in_app_or in H. destruct H as [H|[H|H]].
    + right. exists p. simpl. auto.
    + left. congruence.
    + destruct (IH H) as [->|[x [Hx Hc]]]; [auto|].
      right. exists x. split; [right; exact Hx|exact Hc].
Qed.

Lemma join_head sep p l c t : p = c :: t -> In c (join sep (p :: l)).
Proof.
  intros ->. destruct l; simpl; auto.
Qed.

Lemma line_ok_parts p :
  line_ok p = true ->
  p <> [] /\ trimmed p = true /\ ~ In CR p /\ ~ In LF p.
Proof.
  unfold line_ok, path_ok. rewrite !andb_true_iff, !negb_true_iff.
  intros [[[Hn Ht] Hcr] Hlf]. split; [destruct p; [discriminate|congruence]|].
  split; [exact Ht|]. split.
  - intros H. assert (existsb (fun c => (c =? CR)%N) p = true) as E
      by (apply existsb_exists; exists CR; split; [exact H|apply N.eqb_refl]).
    congruence.
  - intros H. assert (existsb (fun c => (c =? LF)%N) p = true) as E
      by (apply existsb_exists; exists LF; split; [exact H|apply N.eqb_refl]).
    congruence.
Qed.

(** A list of well-formed, newline-free paths survives being joined into
    the text of the box and submitted again. *)
Lemma checkpoints_paths_join default l :
  l <> [] -> forallb line_ok l = true ->
  checkpoints_paths default (join LF l) = l.
Proof.
  intros Hne Hall. rewrite forallb_forall in Hall.
  assert (forall p, In p l -> p <> [] /\ trimmed p = true
                               /\ ~ In CR p /\ ~ In LF p) as Hp
    by (intros p Hin; apply line_ok_parts, Hall, Hin).
  assert (strip (join LF l) <> []) as Hs.
  { destruct l as [|p l]; [congruence|].
    destruct (Hp p (or_introl eq_refl)) as (Hn & Ht & _).
    destruct p as [|c t]; [congruence|].
    apply strip_nonnil_iff. exists c. split.
    - exact (join_head LF (c :: t) l c t eq_refl).
    - unfold trimmed in Ht. apply andb_true_iff in Ht.
      apply negb_true_iff. tauto. }
  rewrite (checkpoints_paths_nonblank _ _ Hs).
  unfold paths, normalize, remove_cr.
  rewrite (filter_id (fun c => negb (c =? CR)%N) (join LF l)).
  - rewrite (split_join LF l Hne) by (intros p Hin; apply Hp, Hin).
    rewrite map_id_on by (intros p Hin; apply strip_trimmed_id, Hp, Hin).
    apply filter_id. intros p Hin. destruct (Hp p Hin) as [Hn _].
    destruct p; [congruence|reflexivity].
  - intros c Hc. apply negb_true_iff, N.eqb_neq. intros ->.
    destruct (In_join LF l CR Hc) as [H|[p [Hin Hcp]]]; [discriminate|].
    exact (proj1 (proj2 (proj2 (Hp p Hin))) Hcp).
Qed.

(** Every path read from a text can stand on a line of its own. *)
Lemma paths_line_ok text p : In p (paths text) -> line_ok p = true.
Proof.
  intros Hin. unfold line_ok. rewrite (paths_path_ok text p Hin). simpl.
  apply negb_true_iff.
  destruct (existsb (fun c => (c =? LF)%N) p) eqn:E; [|reflexivity].
  apply existsb_exists in E. destruct E as [c [Hc Heq]].
  apply N.eqb_eq in Heq. subst c.
  unfold paths, normalize in Hin. rewrite filter_In, in_map_iff in Hin.
  destruct Hin as [[piece [<- Hp]] _].
  apply strip_In in Hc. destruct (split_no_sep LF _ piece Hp Hc).
Qed.


End ShowAndRead.

(** ** Further properties of the handlers *)

Section Further.
Import PyStr Plugin Spec PyStrFacts Ui.

(** The dict display depends on the world in nothing. *)
Lemma new_server_config_pure (state : dict) f paths w w0 :
  fst (new_server_config state f paths w)
  = fst (new_server_config state f paths w0).
Proof.
  unfold new_server_config, mbind, M_bind, getitem, mret, M_ret, raise.
  destruct (state !! "model_type"); [cbv beta iota|reflexivity].
  destruct (state !! "last_model_per_family"); [cbv beta iota|reflexivity].
  destruct (state !! "last_model_per_type"); [cbv beta iota|reflexivity].
  destruct (state !! "advanced"); [cbv beta iota|reflexivity].
  destruct (state !! "last_resolution_per_group"); reflexivity.
Qed.

Lemma new_server_config_at (state : dict) f paths w w0 r :
  new_server_config state f paths w0 = (r, w0) ->
  new_server_config state f paths w = (r, w).
Proof.
  intros H.
  pose proof (new_server_config_pure state f paths w w0) as Hp.
  pose proof (new_server_config_world state f paths w) as Hw.
  rewrite H in Hp. simpl in Hp.
  destruct (new_server_config state f paths w) as [o w1].
  simpl in Hp, Hw. subst. reflexivity.
Qed.

(** The run of an unlocked save, given the dict display. *)
Lemma save_changes_run w (state : dict) f d w0 :
  lock_config w = false ->
  let paths := checkpoints_paths (default_checkpoints_paths w)
                                 (checkpoints_paths_choice f) in
  new_server_config state f paths w0 = (Returned d, w0) ->
  _save_changes state f w
  = (Returned saved_notice,
     saved w paths (carry_over "enabled_plugins" (server_config w) d)).
Proof.
  intros Hlock paths Hd.
  pose proof (new_server_config_at state f paths (installed w paths) w0 _ Hd)
    as Hd'.
  unfold _save_changes, mbind, M_bind, world. rewrite Hlock.
  fold paths.
  unfold set_checkpoints_paths, mbind, M_bind, world, put.
  fold (installed w paths). rewrite Hd'.
  cbn [lock_config installed server_config server_config_filename].
  rewrite Hlock.
  unfold write_json, server_config_update, mbind, M_bind, world, put,
    mret, M_ret, saved, installed.
  cbn [lock_config server_config server_config_filename
       default_checkpoints_paths fl_checkpoints_paths files calls].
  rewrite <- app_assoc, ?Hlock. reflexivity.
Qed.

Lemma missing_test (o : option pyval) :
  negb (bool_decide (is_Some o))
  = match o with Some _ => false | None => true end.
Proof.
  destruct o.
  - rewrite bool_decide_eq_true_2 by eauto. reflexivity.
  - rewrite bool_decide_eq_false_2; [reflexivity|]. intros [x Hx]. discriminate.
Qed.

(** The display raises [KeyError] for the first key [state] lacks. *)
Lemma new_server_config_first_missing (state : dict) f paths w k :
  first_missing state = Some k ->
  new_server_config state f paths w = (Raised (KeyError k), w).
Proof.
  unfold first_missing, state_keys. cbn [List.find]. rewrite !missing_test.
  unfold new_server_config, mbind, M_bind, getitem, mret, M_ret, raise.
  destruct (state !! "model_type"); cbv beta iota;
    [|intros H; injection H as <-; reflexivity].
  destruct (state !! "last_model_per_family"); cbv beta iota;
    [|intros H; injection H as <-; reflexivity].
  destruct (state !! "last_model_per_type"); cbv beta iota;
    [|intros H; injection H as <-; reflexivity].
  destruct (state !! "advanced"); cbv beta iota;
    [|intros H; injection H as <-; reflexivity].
  destruct (state !! "last_resolution_per_group"); cbv beta iota;
    [discriminate|intros H; injection H as <-; reflexivity].
Qed.

Lemma save_changes_first_missing w (state : dict) f k :
  lock_config w = false ->
  first_missing state = Some k ->
  _save_changes state f w
  = (Raised (KeyError k),
     installed w (checkpoints_paths (default_checkpoints_paths w)
                                    (checkpoints_paths_choice f))).
Proof.
  intros Hlock Hk.
  unfold _save_changes, mbind, M_bind, world. rewrite Hlock.
  unfold set_checkpoints_paths, mbind, M_bind, world, put.
  match goal with
  | |- context [new_server_config state f ?p ?w1] =>
      rewrite (new_server_config_first_missing state f p w1 k Hk)
  end.
  reflexivity.
Qed.

(** X1: with the lock clear and a key missing from [state],
    [_save_changes] raises [KeyError] for the first missing key in the
    order of the dict display; the registry already holds the submitted
    path list, while no file is written and [server_config] keeps its
    prior content. *)
Theorem save_changes_key_error w (state : dict) f k :
  lock_config w = false ->
  first_missing state = Some k ->
  let paths := checkpoints_paths (default_checkpoints_paths w)
                                 (checkpoints_paths_choice f) in
  let w' := snd (_save_changes state f w) in
  fst (_save_changes state f w) = Raised (KeyError k)
  /\ state !! k = None
  /\ fl_checkpoints_paths w' = paths
  /\ files w' = files w
  /\ server_config w' = server_config w
  /\ calls w' = calls w ++ [SetCheckpointsPaths paths].
Proof.
  intros Hlock Hk paths w'. subst w'.
  rewrite (save_changes_first_missing w state f k Hlock Hk).
  cbn [fst snd]. split; [reflexivity|]. split; [|repeat split].
  unfold first_missing in Hk. apply find_some in Hk.
  destruct Hk as [_ Hk]. rewrite missing_test in Hk.
  destruct (state !! k); [discriminate|reflexivity].
Qed.

Lemma save_changes_key_error_witness :
  let w := Sample.world false Sample.prior Sample.defaults in
  let f := Sample.form (VStr (py "sage2")) (VStr []) Sample.two_folders in
  let state := delete "advanced" (delete "last_model_per_type" Sample.state) in
  let w' := snd (_save_changes state f w) in
  fst (_save_changes state f w) = Raised (KeyError "last_model_per_type")
  /\ state !! "last_model_per_type" = None
  /\ fl_checkpoints_paths w' = [py "ckpts"; py "models/extra"]
  /\ files w' = files w
  /\ server_config w' = server_config w
  /\ calls w' = calls w ++ [SetCheckpointsPaths [py "ckpts"; py "models/extra"]].
Proof.
  intros w f state.
  apply (save_changes_key_error w state f "last_model_per_type");
    reflexivity.
Defined.

Lemma lookup_union_same (m1 m2 : dict) k :
  m1 !! k = m2 !! k -> (m1 ∪ m2) !! k = m2 !! k.
Proof.
  intros H. destruct (m1 !! k) as [v|] eqn:E.
  - rewrite <- H. apply lookup_union_Some_l, E.
  - apply lookup_union_r, E.
Qed.

(** The record a completed save writes agrees with the prior
    [server_config] outside the dict display. *)
Lemma carried_record_outside (sc d : dict) k :
  dom d = display_keys -> k ∉ display_keys ->
  carry_over "enabled_plugins" sc d !! k
  = if decide (k = "enabled_plugins") then sc !! k else None.
Proof.
  intros Hdom Hk. destruct (decide (k = "enabled_plugins")) as [->|Hne].
  - apply carry_over_lookup_eq, not_elem_of_dom. rewrite Hdom. exact Hk.
  - rewrite carry_over_lookup_ne by exact Hne.
    apply not_elem_of_dom. rewrite Hdom. exact Hk.
Qed.

(** X2: a completed save merges the record into the in-memory
    [server_config] instead of replacing it: every key outside the dict
    display keeps its prior value, so the keys in memory are the prior
    ones together with those of the display, while the file holds the
    record alone. *)
Theorem server_config_merged w (state : dict) f :
  lock_config w = false ->
  has_keys state = true ->
  let w' := snd (_save_changes state f w) in
  (forall k, k ∉ display_keys -> server_config w' !! k = server_config w !! k)
  /\ dom (server_config w') = display_keys ∪ dom (server_config w).
Proof.
  intros Hlock Hkeys w'. subst w'.
  destruct (save_changes_unlocked w state f Hlock Hkeys)
    as [d [(Hdom & _) Hrun]].
  rewrite Hrun. cbn [snd saved server_config]. split.
  - intros k Hk.
    pose proof (carried_record_outside (server_config w) d k Hdom Hk) as E.
    destruct (decide (k = "enabled_plugins")) as [->|Hne].
    + apply lookup_union_same, E.
    + apply lookup_union_r, E.
  - rewrite dom_union_L, dom_carry_over, Hdom.
    apply set_eq. intros k. rewrite !elem_of_union.
    destruct (bool_decide ("enabled_plugins" ∈ dom (server_config w))) eqn:E.
    + apply bool_decide_eq_true in E. rewrite elem_of_singleton. split.
      * intros [[H|H]|H]; [auto| |auto]. subst k. auto.
      * intros [H|H]; auto.
    + split.
      * intros [[H|H]|H]; [auto| |auto]. destruct (not_elem_of_empty _ H).
      * intros [H|H]; auto.
Qed.

Lemma server_config_merged_witness :
  let w := Sample.world false
             (<["fullscreen" := VBool true]> Sample.with_plugins)
             Sample.defaults in
  let f := Sample.form (VStr (py "sage2")) (VStr []) Sample.two_folders in
  let w' := snd (_save_changes Sample.state f w) in
  (forall k, k ∉ display_keys -> server_config w' !! k = server_config w !! k)
  /\ dom (server_config w') = display_keys ∪ dom (server_config w).
Proof.
  intros w f. apply (server_config_merged w Sample.state f); reflexivity.
Defined.

(** X3: saving the same form a second time changes nothing but the
    trace: the second run returns the saved notice too, and leaves the
    in-memory [server_config], the files and the registry as the first
    run left them. *)
Theorem save_changes_idempotent w (state : dict) f :
  lock_config w = false ->
  has_keys state = true ->
  let w1 := snd (_save_changes state f w) in
  let w2 := snd (_save_changes state f w1) in
  fst (_save_changes state f w1) = Returned saved_notice
  /\ server_config w2 = server_config w1
  /\ files w2 = files w1
  /\ fl_checkpoints_paths w2 = fl_checkpoints_paths w1.
Proof.
  intros Hlock Hkeys w1 w2. subst w2 w1.
  pose (paths := checkpoints_paths (default_checkpoints_paths w)
                                   (checkpoints_paths_choice f)).
  destruct (new_server_config_returns state f paths w Hkeys)
    as [d [Hd (Hdom & _)]].
  pose (doc := carry_over "enabled_plugins" (server_config w) d).
  assert (carry_over "enabled_plugins" (doc ∪ server_config w) d = doc) as E.
  { unfold carry_over at 1.
    assert ((doc ∪ server_config w) !! "enabled_plugins"
            = server_config w !! "enabled_plugins") as ->.
    { apply lookup_union_same. unfold doc.
      apply carry_over_lookup_eq, not_elem_of_dom. rewrite Hdom.
      exact enabled_plugins_fresh. }
    reflexivity. }
  pose proof (save_changes_run w state f d w Hlock Hd) as H1.
  pose proof (save_changes_run (saved w paths doc) state f d w Hlock Hd) as H2.
  cbv zeta in H1, H2.
  cbn [saved server_config default_checkpoints_paths] in H2.
  fold paths in H1, H2. fold doc in H1, H2. rewrite E in H2.
  fold paths. rewrite H1. cbn [snd]. rewrite H2.
  cbn [fst snd saved server_config files fl_checkpoints_paths
       server_config_filename].
  split; [reflexivity|]. split; [|split; [|reflexivity]].
  - rewrite (assoc_L (∪)), (idemp_L (∪)). reflexivity.
  - apply insert_insert_eq.
Qed.

Lemma save_changes_idempotent_witness :
  let w := Sample.world false Sample.with_plugins Sample.defaults in
  let f := Sample.form (VStr (py "sage2")) (VStr (py "transformer"))
                       Sample.two_folders in
  let w1 := snd (_save_changes Sample.state f w) in
  let w2 := snd (_save_changes Sample.state f w1) in
  fst (_save_changes Sample.state f w1) = Returned saved_notice
  /\ server_config w2 = server_config w1
  /\ files w2 = files w1
  /\ fl_checkpoints_paths w2 = fl_checkpoints_paths w1.
Proof.
  intros w f. apply (save_changes_idempotent w Sample.state f); reflexivity.
Defined.

Lemma frame_refl w : frame w w.
Proof.
  unfold frame. repeat split. exists []. symmetry. apply app_nil_r.
Qed.

Lemma frame_installed w paths : frame w (installed w paths).
Proof. unfold frame, installed. simpl. repeat split. eauto. Qed.

Lemma frame_saved w paths doc : frame w (saved w paths doc).
Proof.
  unfold frame, saved. simpl. repeat split; [|eauto].
  intros path Hp. apply lookup_insert_ne. congruence.
Qed.

Lemma frame_log w w1 cs : frame w w1 -> frame w (log w1 cs).
Proof.
  unfold frame, log. simpl. intros (H1 & H2 & H3 & H4 & [cs1 H5]).
  repeat split; try assumption.
  exists (cs1 ++ cs). rewrite H5, <- app_assoc. reflexivity.
Qed.

Lemma save_changes_frame w (state : dict) f :
  frame w (snd (_save_changes state f w)).
Proof.
  destruct (save_changes_outcomes w state f)
    as [[_ ->]|[(k & _ & _ & ->)|(doc & -> & _)]]; cbn [snd].
  - apply frame_refl.
  - apply frame_installed.
  - apply frame_saved.
Qed.

(** X4: whatever the lock, the [state] and the form, neither handler
    changes the lock, the default path list or the name of the
    configuration file, touches a file other than the configuration
    file, or drops a call already made. *)
Theorem handlers_frame w (state : dict) f :
  frame w (snd (_save_changes state f w))
  /\ frame w (snd (_save_and_restart state f w)).
Proof.
  split; [apply save_changes_frame|].
  pose proof (save_changes_frame w state f) as H.
  destruct (_save_changes state f w) as [[msg|e] w1] eqn:E; cbn [snd] in H.
  - rewrite (save_and_restart_after_return w state f msg w1 E). cbn [snd].
    apply frame_log, H.
  - rewrite (save_and_restart_after_raise w state f e w1 E). exact H.
Qed.

(** X5: an unlocked [_save_and_restart] on a complete [state] makes its
    four host calls in this order: the registry update, the write of the
    configuration file, the notification, and only then
    [quit_application]. *)
Theorem save_and_restart_order w (state : dict) f :
  lock_config w = false ->
  has_keys state = true ->
  let paths := checkpoints_paths (default_checkpoints_paths w)
                                 (checkpoints_paths_choice f) in
  let r := _save_and_restart state f w in
  exists doc,
    fst r = Returned tt
    /\ files (snd r) !! server_config_filename w = Some doc
    /\ calls (snd r)
       = calls w
         ++ [SetCheckpointsPaths paths;
             FileWrite (server_config_filename w) doc;
             GrInfo "Settings saved. Restarting application...";
             QuitApplication].
Proof.
  intros Hlock Hkeys paths r. subst r.
  destruct (save_changes_record w state f Hlock Hkeys) as (doc & Hrun & _).
  exists doc.
  rewrite (save_and_restart_after_return w state f _ _ Hrun).
  cbn [fst snd log saved files calls]. split; [reflexivity|].
  split; [apply lookup_insert_eq|]. rewrite <- app_assoc. reflexivity.
Qed.

Lemma save_and_restart_order_witness :
  let w := Sample.world false Sample.prior Sample.defaults in
  let f := Sample.form (VStr (py "sage2")) (VStr []) Sample.blank in
  let r := _save_and_restart Sample.state f w in
  exists doc,
    fst r = Returned tt
    /\ files (snd r) !! "wgp_config.json" = Some doc
    /\ calls (snd r)
       = calls w
         ++ [SetCheckpointsPaths Sample.defaults;
             FileWrite "wgp_config.json" doc;
             GrInfo "Settings saved. Restarting application...";
             QuitApplication].
Proof.
  intros w f. apply (save_and_restart_order w Sample.state f); reflexivity.
Defined.

(** X6: with the lock clear and a key missing from [state],
    [_save_and_restart] raises the [KeyError] of [_save_changes]: it
    neither notifies nor calls [quit_application], the one call made is
    the registry update, and no file is written. *)
Theorem save_and_restart_key_error w (state : dict) f k :
  lock_config w = false ->
  first_missing state = Some k ->
  let paths := checkpoints_paths (default_checkpoints_paths w)
                                 (checkpoints_paths_choice f) in
  let r := _save_and_restart state f w in
  fst r = Raised (KeyError k)
  /\ calls (snd r) = calls w ++ [SetCheckpointsPaths paths]
  /\ files (snd r) = files w.
Proof.
  intros Hlock Hk paths r. subst r.
  rewrite (save_and_restart_after_raise w state f _ _
             (save_changes_first_missing w state f k Hlock Hk)).
  repeat split.
Qed.

Lemma save_and_restart_key_error_witness :
  let w := Sample.world false Sample.prior Sample.defaults in
  let f := Sample.form (VStr (py "sage2")) (VStr []) Sample.blank in
  let r := _save_and_restart (delete "advanced" Sample.state) f w in
  fst r = Raised (KeyError "advanced")
  /\ calls (snd r) = calls w ++ [SetCheckpointsPaths Sample.defaults]
  /\ files (snd r) = files w.
Proof.
  intros w f.
  apply (save_and_restart_key_error w (delete "advanced" Sample.state) f
           "advanced"); reflexivity.
Defined.

End Further.

(** ** The form: what it shows and how a click reaches the handler *)

Section Form.
Import PyStr Plugin Spec PyStrFacts Ui.



(** X8: reading the folders text is idempotent: for a text that is not
    blank, joining the paths read from it with newlines and reading the
    result gives the same paths, whatever the default list. *)
Theorem checkpoints_paths_idempotent default default' text :
  strip text <> [] ->
  checkpoints_paths default' (join LF (checkpoints_paths default text))
  = checkpoints_paths default text.
Proof.
  intros Hs. rewrite (checkpoints_paths_nonblank default _ Hs).
  apply checkpoints_paths_join.
  - intros E. apply paths_nil_iff in E. congruence.
  - apply forallb_forall. intros p. apply paths_line_ok.
Qed.

Lemma checkpoints_paths_idempotent_witness :
  strip Sample.two_folders <> []
  /\ checkpoints_paths [] (join LF (checkpoints_paths Sample.defaults
                                                      Sample.two_folders))
     = checkpoints_paths Sample.defaults Sample.two_folders.
Proof.
  assert (strip Sample.two_folders <> []) as H by (vm_compute; discriminate).
  split; [exact H|]. apply checkpoints_paths_idempotent. exact H.
Defined.


(** A click on a string in the folders box and a dict in [state] runs
    the body on the form bound by name. *)
Lemma click_call values w items text :
  values c_state = VDict items ->
  values c_checkpoints_paths_choice = VStr text ->
  _save_changes_call (click_args values) w
  = lift (_save_changes (list_to_map items) (form_of values text) w).
Proof.
  intros Hs Ht. unfold click_args, inputs. cbn [map]. rewrite Hs, Ht.
  unfold _save_changes_call. destruct (lock_config w) eqn:Hlock.
  - rewrite (save_changes_locked_run w _ _ Hlock). reflexivity.
  - reflexivity.
Qed.

(** X10: the order of [inputs] in [post_ui_setup] is the order in which
    [_save_changes] unpacks its arguments: a click passes thirty-five
    values after [state], and each name of the body receives the value
    of the component meant for it. *)
Theorem click_binds_by_name values w items text :
  values c_state = VDict items ->
  values c_checkpoints_paths_choice = VStr text ->
  length (click_args values) = 36
  /\ _save_changes_call (click_args values) w
     = lift (_save_changes (list_to_map items) (form_of values text) w).
Proof.
  intros Hs Ht. split; [reflexivity|]. apply click_call; assumption.
Qed.

Lemma click_binds_by_name_witness :
  let values := UiSample.values (VDict UiSample.state_items)
                                (VStr Sample.two_folders) in
  let w := Sample.world false Sample.prior Sample.defaults in
  length (click_args values) = 36
  /\ _save_changes_call (click_args values) w
     = lift (_save_changes (list_to_map UiSample.state_items)
                           (form_of values Sample.two_folders) w).
Proof.
  intros values w.
  apply (click_binds_by_name values w UiSample.state_items
           Sample.two_folders); reflexivity.
Defined.

(** X11: a click with the lock clear, a [state] dict with the five keys
    and a string in the folders box saves, under every key of the record
    that a component fills, the value of that component: "save_path"
    holds the value of the video folder box, "last_resolution_choice"
    that of the host's resolution component, and so on for the
    thirty-four keys of [stored_component]. *)
Theorem click_stores_component_values values w items text :
  lock_config w = false ->
  values c_state = VDict items ->
  has_keys (list_to_map items) = true ->
  values c_checkpoints_paths_choice = VStr text ->
  exists doc w',
    _save_changes_call (click_args values) w = (inr saved_notice, w')
    /\ files w' !! server_config_filename w = Some doc
    /\ Forall (fun kc => doc !! fst kc = Some (values (snd kc)))
              stored_component.
Proof.
  intros Hlock Hs Hkeys Ht.
  rewrite (click_call values w items text Hs Ht).
  destruct (has_keys_lookup _ Hkeys)
    as (v1 & v2 & v3 & v4 & v5 & H1 & H2 & H3 & H4 & H5).
  pose (paths := checkpoints_paths (default_checkpoints_paths w) text).
  eassert (new_server_config (list_to_map items) (form_of values text)
             paths w = (Returned _, w)) as Hd.
  { unfold new_server_config, mbind, M_bind.
    rewrite (getitem_Some _ _ _ _ H1), (getitem_Some _ _ _ _ H2),
      (getitem_Some _ _ _ _ H3), (getitem_Some _ _ _ _ H4),
      (getitem_Some _ _ _ _ H5).
    reflexivity. }
  rewrite (save_changes_run w _ (form_of values text) _ w Hlock Hd).
  eexists _, _. split; [reflexivity|].
  cbn [saved files]. split; [apply lookup_insert_eq|].
  unfold stored_component.
  repeat (apply List.Forall_cons;
          [cbn [fst snd]; rewrite carry_over_lookup_ne by discriminate;
           vm_compute; reflexivity|]).
  apply List.Forall_nil.
Qed.

Lemma click_stores_component_values_witness :
  let values := UiSample.values (VDict UiSample.state_items)
                                (VStr Sample.two_folders) in
  let w := Sample.world false Sample.prior Sample.defaults in
  exists doc w',
    _save_changes_call (click_args values) w = (inr saved_notice, w')
    /\ files w' !! "wgp_config.json" = Some doc
    /\ Forall (fun kc => doc !! fst kc = Some (values (snd kc)))
              stored_component.
Proof.
  intros values w.
  apply (click_stores_component_values values w UiSample.state_items
           Sample.two_folders); reflexivity.
Defined.




(** The dict display on a complete [state]: its keys, and the five
    entries it takes from [state]. *)
Lemma new_server_config_state_entries (state : dict) f paths w :
  has_keys state = true ->
  exists d,
    new_server_config state f paths w = (Returned d, w)
    /\ dom d = display_keys
    /\ d !! "last_model_type" = state !! "model_type"
    /\ d !! "last_model_per_family" = state !! "last_model_per_family"
    /\ d !! "last_model_per_type" = state !! "last_model_per_type"
    /\ d !! "last_advanced_choice" = state !! "advanced"
    /\ d !! "last_resolution_per_group"
       = state !! "last_resolution_per_group".
Proof.
  intros Hkeys.
  destruct (has_keys_lookup state Hkeys)
    as (v1 & v2 & v3 & v4 & v5 & H1 & H2 & H3 & H4 & H5).
  rewrite H1, H2, H3, H4, H5.
  eexists. split.
  - unfold new_server_config, mbind, M_bind.
    rewrite (getitem_Some _ _ _ _ H1), (getitem_Some _ _ _ _ H2),
      (getitem_Some _ _ _ _ H3), (getitem_Some _ _ _ _ H4),
      (getitem_Some _ _ _ _ H5).
    reflexivity.
  - repeat split; vm_compute; reflexivity.
Qed.

(** The record an unlocked save writes, outside the keys a component
    fills: the five entries taken from [state], the carried-over
    "enabled_plugins", and nothing beyond the dict display. *)
Lemma save_changes_state_entries w (state : dict) f :
  lock_config w = false ->
  has_keys state = true ->
  exists doc,
    files (snd (_save_changes state f w)) !! server_config_filename w
      = Some doc
    /\ doc !! "enabled_plugins" = server_config w !! "enabled_plugins"
    /\ (forall k, k ∉ display_keys -> k <> "enabled_plugins" ->
                  doc !! k = None)
    /\ doc !! "last_model_type" = state !! "model_type"
    /\ doc !! "last_model_per_family" = state !! "last_model_per_family"
    /\ doc !! "last_model_per_type" = state !! "last_model_per_type"
    /\ doc !! "last_advanced_choice" = state !! "advanced"
    /\ doc !! "last_resolution_per_group"
       = state !! "last_resolution_per_group".
Proof.
  intros Hlock Hkeys.
  destruct (new_server_config_state_entries state f
              (checkpoints_paths (default_checkpoints_paths w)
                                 (checkpoints_paths_choice f)) w Hkeys)
    as (d & Hd & Hdom & E1 & E2 & E3 & E4 & E5).
  rewrite (save_changes_run w state f d w Hlock Hd).
  eexists. cbn [snd saved files].
  split; [apply lookup_insert_eq|].
  split; [apply carry_over_lookup_eq, not_elem_of_dom; rewrite Hdom;
          exact enabled_plugins_fresh|].
  split.
  { intros k Hk Hne. rewrite carry_over_lookup_ne by exact Hne.
    apply not_elem_of_dom. rewrite Hdom. exact Hk. }
  rewrite !carry_over_lookup_ne by discriminate.
  repeat split; assumption.
Qed.

(** C10, as stated, fails: "last_model_type" is a key no form control
    fills, the prior configuration has it, and the written record has
    it too, with the value of [state], not the prior one. *)
Lemma state_key_written :
  let prior := <["last_model_type" := VStr (py "i2v")]> Sample.prior in
  let w := Sample.world false prior Sample.defaults in
  let f := Sample.form (VStr (py "sdpa")) (VStr []) Sample.two_folders in
  ~ In "last_model_type" (map fst stored_component)
  /\ "last_model_type" <> "checkpoints_paths"
  /\ "last_model_type" <> "enabled_plugins"
  /\ server_config w !! "last_model_type" = Some (VStr (py "i2v"))
  /\ exists doc,
       files (snd (_save_changes Sample.state f w)) !! "wgp_config.json"
         = Some doc
       /\ doc !! "last_model_type" = Some (VStr (py "t2v")).
Proof.
  intros prior w f.
  split; [compute_done|]. split; [discriminate|]. split; [discriminate|].
  split; [reflexivity|].
  destruct (save_changes_state_entries w Sample.state f eq_refl eq_refl)
    as (doc & Hfile & _ & _ & Hm & _).
  exists doc. split; [exact Hfile|exact Hm].
Qed.

(** C10, amended: the record an unlocked save writes has
    "enabled_plugins" exactly when the prior [server_config] has it,
    with the prior value; it has no other key outside the forty keys of
    the dict display; and the five keys of the display that no form
    control fills are always written, with the entries of [state]. *)
Theorem enabled_plugins_and_state_entries w (state : dict) f :
  lock_config w = false ->
  has_keys state = true ->
  exists doc,
    files (snd (_save_changes state f w)) !! server_config_filename w
      = Some doc
    /\ doc !! "enabled_plugins" = server_config w !! "enabled_plugins"
    /\ (forall k, k ∉ display_keys -> k <> "enabled_plugins" ->
                  doc !! k = None)
    /\ doc !! "last_model_type" = state !! "model_type"
    /\ doc !! "last_model_per_family" = state !! "last_model_per_family"
    /\ doc !! "last_model_per_type" = state !! "last_model_per_type"
    /\ doc !! "last_advanced_choice" = state !! "advanced"
    /\ doc !! "last_resolution_per_group"
       = state !! "last_resolution_per_group".
Proof. apply save_changes_state_entries. Qed.

Lemma enabled_plugins_and_state_entries_witness :
  let w := Sample.world false
             (<["fullscreen" := VBool true]> Sample.with_plugins)
             Sample.defaults in
  let f := Sample.form (VStr (py "sdpa")) (VStr []) Sample.two_folders in
  exists doc,
    files (snd (_save_changes Sample.state f w)) !! "wgp_config.json"
      = Some doc
    /\ doc !! "enabled_plugins"
       = Some (VList [VStr (py "wan2gp-configuration")])
    /\ (forall k, k ∉ display_keys -> k <> "enabled_plugins" ->
                  doc !! k = None)
    /\ doc !! "last_model_type" = Some (VStr (py "t2v"))
    /\ doc !! "last_model_per_family" = Some (VDict [])
    /\ doc !! "last_model_per_type" = Some (VDict [])
    /\ doc !! "last_advanced_choice" = Some (VBool false)
    /\ doc !! "last_resolution_per_group" = Some (VDict []).
Proof.
  intros w f.
  apply (enabled_plugins_and_state_entries w Sample.state f); reflexivity.
Defined.

End Form.
